(** * duplex: the G-code to AS command-line driver (src/main.py)

    A shallow embedding of the driver: parameter resolution across the
    command line, [options.ini] and [input_parameters.txt]; the run of the
    selected mode; and the text pass that rewrites the generated program
    with a metadata header.  Python text is [string], configuration
    sections are [gmap string string], dictionaries whose order is
    observable are association lists, and the effects of a run (console
    output, file writes, the call of the mode) are threaded through a
    small state-and-exception monad. *)

From Stdlib Require Import String Ascii ZArith List PrimFloat SpecFloat FloatOps DecimalString Reals Lra.
From stdpp Require Import base option list gmap strings.

Set Warnings "-inexact-float".
Local Open Scope string_scope.
Local Open Scope list_scope.

(** ** Python text primitives *)

Module PyStr.

(** [str.isspace] on the code points below 256: TAB..CR, FS..US, SPACE,
    NEL and NBSP.  [str.strip()] and the regex class [\s] use the same
    predicate. *)
Definition is_space (c : ascii) : bool :=
  let n := N_of_ascii c in
  ((9 <=? n) && (n <=? 13) || (28 <=? n) && (n <=? 32) || (n =? 133) || (n =? 160))%N.

Definition is_digit (c : ascii) : bool :=
  let n := N_of_ascii c in ((48 <=? n) && (n <=? 57))%N.

Fixpoint lstrip (s : string) : string :=
  match s with
  | EmptyString => EmptyString
  | String c s' => if is_space c then lstrip s' else s
  end.

Fixpoint rstrip (s : string) : string :=
  match s with
  | EmptyString => EmptyString
  | String c s' =>
      match rstrip s' with
      | EmptyString => if is_space c then EmptyString else String c EmptyString
      | r => String c r
      end
  end.

(** [s.strip()] *)
Definition strip (s : string) : string := rstrip (lstrip s).

(** [c in s] for a one-character [c] *)
Fixpoint contains (c : ascii) (s : string) : bool :=
  match s with
  | EmptyString => false
  | String a s' => if Ascii.eqb a c then true else contains c s'
  end.

(** [s.split(c, 1)[0]]: the text before the first [c], all of [s] when
    there is none. *)
Fixpoint split_first (c : ascii) (s : string) : string :=
  match s with
  | EmptyString => EmptyString
  | String a s' => if Ascii.eqb a c then EmptyString else String a (split_first c s')
  end.

(** [s[len(p):]] when [s.startswith(p)] *)
Fixpoint strip_prefix (p s : string) : option string :=
  match p, s with
  | EmptyString, _ => Some s
  | String a p', String b s' => if Ascii.eqb a b then strip_prefix p' s' else None
  | String _ _, EmptyString => None
  end.

Definition semicolon : ascii := ";"%char.
Definition newline : string := String (ascii_of_nat 10) EmptyString.
Definition tab : string := String (ascii_of_nat 9) EmptyString.

(** Universal-newline translation of text-mode reads: CR LF and a lone CR
    both become LF. *)
Fixpoint universal_newlines (s : string) : string :=
  match s with
  | EmptyString => EmptyString
  | String c s' =>
      if Ascii.eqb c (ascii_of_nat 13) then
        match s' with
        | String c' _ =>
            if Ascii.eqb c' (ascii_of_nat 10) then universal_newlines s'
            else String (ascii_of_nat 10) (universal_newlines s')
        | EmptyString => newline
        end
      else String c (universal_newlines s')
  end.

(** [str.splitlines(keepends=True)] restricted to LF, which is what
    [readlines] does after newline translation: [cur] is the line being
    accumulated. *)
Fixpoint lines_from (cur : string) (s : string) : list string :=
  match s with
  | EmptyString => match cur with EmptyString => [] | _ => [cur] end
  | String c s' =>
      if Ascii.eqb c (ascii_of_nat 10)
      then (cur +:+ newline) :: lines_from EmptyString s'
      else lines_from (cur +:+ String c EmptyString) s'
  end.

(** [file.readlines()] of a text-mode file holding [s] *)
Definition readlines (s : string) : list string :=
  lines_from EmptyString (universal_newlines s).

(** [file.writelines(ls)] into a fresh file: the concatenation *)
Definition writelines (ls : list string) : string :=
  fold_right String.append EmptyString ls.

End PyStr.

(** ** Values, exceptions and the run monad *)

(** The Python values the driver moves between the command line, the
    parameter dictionaries and the header. *)
Inductive pyval :=
| VNone
| VInt (z : Z)
| VFloat (f : float)
| VBool (b : bool)
| VStr (s : string).

(** The exception classes a run can raise. *)
Inductive exn :=
| CalledProcessError
| FileNotFoundError
| ParsingError
| TypeError
| ValueError
| OverflowError
| InterpolationSyntaxError
| InterpolationMissingOptionError
| InterpolationDepthError.

Inductive result (A : Type) :=
| Ok (a : A)
| Raise (e : exn).
Arguments Ok {A} a.
Arguments Raise {A} e.

(** ** Insertion-ordered dictionaries *)

(** A Python [dict] whose iteration order is observable: an association
    list without repeated keys, in insertion order. *)
Module Dict.

Definition t (V : Type) : Type := list (string * V).

Fixpoint get {V} (k : string) (d : t V) : option V :=
  match d with
  | [] => None
  | (k', v) :: d' => if String.eqb k' k then Some v else get k d'
  end.

(** [k in d] *)
Definition mem {V} (k : string) (d : t V) : bool :=
  match get k d with Some _ => true | None => false end.

(** [d[k] = v]: an existing key keeps its position, a new key goes last. *)
Fixpoint set {V} (k : string) (v : V) (d : t V) : t V :=
  match d with
  | [] => [(k, v)]
  | (k', v') :: d' =>
      if String.eqb k' k then (k, v) :: d' else (k', v') :: set k v d'
  end.

(** [d.keys()] *)
Definition keys {V} (d : t V) : list string := map fst d.

End Dict.

(** ** configparser *)

(** A [ConfigParser] object: the [DEFAULT] section and the named sections
    in file order.  Option names are stored lower-cased ([optionxform]). *)
Record ConfigParser := {
  defaults : Dict.t string;
  sections : list (string * Dict.t string)
}.

Definition empty_config : ConfigParser := {| defaults := []; sections := [] |}.

(** What [config.read(path)] finds at a path; a path absent from the file
    table cannot be opened and is skipped by [read] without an error. *)
Inductive ini_file :=
| IniParsed (cfg : ConfigParser)
| IniMalformed (msg : string).

Module Cfg.

(** [str.lower] on the code points below 256 *)
Definition lower_char (c : ascii) : ascii :=
  let n := N_of_ascii c in
  if ((65 <=? n) && (n <=? 90) || (192 <=? n) && (n <=? 222) && negb (n =? 215))%N
  then ascii_of_N (n + 32) else c.

Fixpoint lower (s : string) : string :=
  match s with
  | EmptyString => EmptyString
  | String c s' => String (lower_char c) (lower s')
  end.

Definition percent : ascii := "%"%char.

(** A match of [_KEYCRE = %\(([^)]+)\)s] on text that follows ["%("]:
    the captured name and the text after the closing [")s"]. *)
Fixpoint key_name (s : string) : option (string * string) :=
  match s with
  | EmptyString => None
  | String c s' =>
      if Ascii.eqb c ")"%char then Some (EmptyString, s')
      else match key_name s' with
           | Some (n, t) => Some (String c n, t)
           | None => None
           end
  end.

Definition key_reference (s : string) : option (string * string) :=
  match key_name s with
  | Some (String c n, String e t) =>
      if Ascii.eqb e "s"%char then Some (String c n, t) else None
  | _ => None
  end.

(** [value.replace('%%', '')] *)
Fixpoint drop_escaped (s : string) : string :=
  match s with
  | EmptyString => EmptyString
  | String c s' =>
      match s' with
      | String c' s'' =>
          if Ascii.eqb c percent && Ascii.eqb c' percent then drop_escaped s''
          else String c (drop_escaped s')
      | EmptyString => s
      end
  end.

(** [_KEYCRE.sub('', value)]; [fuel] bounds the scan by the length. *)
Fixpoint drop_references (fuel : nat) (s : string) : string :=
  match fuel with
  | O => s
  | S fuel' =>
      match s with
      | EmptyString => EmptyString
      | String c s' =>
          match s' with
          | String c' s'' =>
              if Ascii.eqb c percent && Ascii.eqb c' "("%char then
                match key_reference s'' with
                | Some (_, t) => drop_references fuel' t
                | None => String c (drop_references fuel' s')
                end
              else String c (drop_references fuel' s')
          | EmptyString => s
          end
      end
  end.

(** [BasicInterpolation.before_set]: [true] when the value is accepted,
    [false] when it raises [ValueError]. *)
Definition before_set (value : string) : bool :=
  let tmp := drop_escaped value in
  let tmp := drop_references (String.length tmp) tmp in
  negb (PyStr.contains percent tmp).

(** [config['DEFAULT'][option] = value] *)
Definition set_default (cfg : ConfigParser) (key value : string) : result ConfigParser :=
  if match value with EmptyString => true | _ => before_set value end
  then Ok {| defaults := Dict.set (lower key) value (defaults cfg);
             sections := sections cfg |}
  else Raise ValueError.

Definition MAX_INTERPOLATION_DEPTH : nat := 10.

(** The [while rest:] loop of [BasicInterpolation._interpolate_some];
    [deeper] interpolates a referenced value one level down and [fuel]
    bounds the scan by the length of the value. *)
Fixpoint scan (deeper : string -> result string) (m : Dict.t string)
  (fuel : nat) (rest : string) {struct fuel} : result string :=
  match fuel with
  | O => Ok EmptyString
  | S fuel' =>
      match rest with
      | EmptyString => Ok EmptyString
      | String c r =>
          if negb (Ascii.eqb c percent) then
            match scan deeper m fuel' r with
            | Ok x => Ok (String c x)
            | Raise e => Raise e
            end
          else
            match r with
            | String c2 r2 =>
                if Ascii.eqb c2 percent then
                  match scan deeper m fuel' r2 with
                  | Ok x => Ok (String percent x)
                  | Raise e => Raise e
                  end
                else if Ascii.eqb c2 "("%char then
                  match key_reference r2 with
                  | None => Raise InterpolationSyntaxError
                  | Some (name, tail) =>
                      match Dict.get (lower name) m with
                      | None => Raise InterpolationMissingOptionError
                      | Some v =>
                          match (if PyStr.contains percent v then deeper v else Ok v) with
                          | Raise e => Raise e
                          | Ok x =>
                              match scan deeper m fuel' tail with
                              | Ok y => Ok (x +:+ y)
                              | Raise e => Raise e
                              end
                          end
                      end
                  end
                else Raise InterpolationSyntaxError
            | EmptyString => Raise InterpolationSyntaxError
            end
      end
  end.

(** [BasicInterpolation._interpolate_some]: [levels] is the number of
    nesting levels still allowed. *)
Fixpoint interpolate_some (levels : nat) (m : Dict.t string) (value : string)
  {struct levels} : result string :=
  match levels with
  | O => Raise InterpolationDepthError
  | S levels' => scan (interpolate_some levels' m) m (String.length value) value
  end.

(** [config.get('DEFAULT', key, fallback=...)]: the interpolated value,
    [None] when the option is absent and the caller's fallback applies. *)
Definition get (cfg : ConfigParser) (key : string) : result (option string) :=
  match Dict.get (lower key) (defaults cfg) with
  | None => Ok None
  | Some value =>
      match interpolate_some MAX_INTERPOLATION_DEPTH (defaults cfg) value with
      | Ok s => Ok (Some s)
      | Raise e => Raise e
      end
  end.

(** [RawConfigParser._convert_to_boolean] *)
Definition convert_to_boolean (value : string) : result bool :=
  let w := lower value in
  if (String.eqb w "1" || String.eqb w "yes" || String.eqb w "true" || String.eqb w "on")%bool
  then Ok true
  else if (String.eqb w "0" || String.eqb w "no" || String.eqb w "false" || String.eqb w "off")%bool
  then Ok false
  else Raise ValueError.

Definition getboolean (cfg : ConfigParser) (key : string) (fallback : bool) : result bool :=
  match get cfg key with
  | Ok None => Ok fallback
  | Ok (Some s) => convert_to_boolean s
  | Raise e => Raise e
  end.

End Cfg.

(** ** The driver's collaborators *)

(** The open source file click hands to [cli]. *)
Record text_io := { io_name : string; io_text : string }.

(** [gcode2as.cli.CLICommandOptions] as [cli] builds it. *)
Record CLICommandOptions := {
  file : text_io;
  min_distance : float;
  verbose : bool;
  params : ConfigParser
}.

(** [gcode2as.cli.CLICommand]: a mode with its menu text and its
    translation; [execute] may return [None] or raise. *)
Record CLICommand (P : Type) := {
  message : string;
  execute : CLICommandOptions -> result (option P)
}.
Arguments message {P} c.
Arguments execute {P} c opts.

(** What [main.py] imports and does not define: the three modes and the
    formatter of the [gcode2as] package, Python's conversions between
    floats and text, and the [pathlib] operations it applies to paths. *)
Record env := {
  program : Type;
  FDM : CLICommand program;
  Metal : CLICommand program;
  LaserCut : CLICommand program;
  format_program : program -> string -> string;
  str_float : float -> string;
  float_of_str : string -> option float;
  stem : string -> string;
  absolute_parent : string -> string;
  joinpath : string -> string -> string
}.

(** What a run leaves behind that can be observed. *)
Inductive event :=
| EvSubprocess (argv : list string)
| EvPrint (text : string)
| EvWriteConfig (path : string) (cfg : ConfigParser)
| EvExecute (mode : string) (opts : CLICommandOptions)
| EvWriteText (path : string) (text : string).

(** The surroundings of a run: the outcome of
    [check_output(["locate", "input_parameters.txt"]).decode()], the
    files configparser can read, the text files, and the events so far. *)
Record world := {
  locate : result string;
  ini : gmap string ini_file;
  txt : gmap string string;
  log : list event
}.

Definition M (A : Type) : Type := world -> result A * world.

Definition ret {A} (a : A) : M A := fun w => (Ok a, w).
Definition raise {A} (e : exn) : M A := fun w => (Raise e, w).
Definition bind {A B} (m : M A) (k : A -> M B) : M B :=
  fun w => match m w with
           | (Ok a, w') => k a w'
           | (Raise e, w') => (Raise e, w')
           end.
Definition lift {A} (r : result A) : M A := fun w => (r, w).

Notation "'let*' x ':=' m 'in' k" := (bind m (fun x => k))
  (at level 10, x name, m at level 100, k at level 200).

Definition emit (e : event) : M unit :=
  fun w => (Ok tt, {| locate := locate w; ini := ini w; txt := txt w;
                      log := log w ++ [e] |}).

(** [print(text)] and [click.echo(text)] *)
Definition print (text : string) : M unit := emit (EvPrint text).

(** [config.write(open(path, 'w'))] *)
Definition write_config (path : string) (cfg : ConfigParser) : M unit :=
  fun w => (Ok tt, {| locate := locate w;
                      ini := <[path := IniParsed cfg]> (ini w);
                      txt := txt w;
                      log := log w ++ [EvWriteConfig path cfg] |}).

(** [open(path, 'w').write(text)]; on POSIX, writing translates no
    newline.  The path is taken to be one that can be opened for writing. *)
Definition write_text (path text : string) : M unit :=
  fun w => (Ok tt, {| locate := locate w; ini := ini w;
                      txt := <[path := text]> (txt w);
                      log := log w ++ [EvWriteText path text] |}).

(** [open(path, 'r')] followed by a read of the whole text *)
Definition read_text (path : string) : M string :=
  fun w => match txt w !! path with
           | Some s => (Ok s, w)
           | None => (Raise FileNotFoundError, w)
           end.

(** [str(v)] *)
Definition py_str (E : env) (v : pyval) : string :=
  match v with
  | VNone => "None"
  | VInt z => NilZero.string_of_int (Z.to_int z)
  | VFloat f => str_float E f
  | VBool true => "True"
  | VBool false => "False"
  | VStr s => s
  end.

(** [float(n)] for an integer: the nearest binary64 value, ties to even. *)
Definition float_of_int (z : Z) : result float :=
  match binary_normalize prec emax z 0 false with
  | S754_infinity _ => Raise OverflowError
  | x => Ok (SF2Prim x)
  end.

(** [float(x)] *)
Definition py_float (E : env) (x : pyval) : result float :=
  match x with
  | VNone => Raise TypeError
  | VInt z => float_of_int z
  | VFloat f => Ok f
  | VBool b => float_of_int (if b then 1 else 0)
  | VStr s =>
      match float_of_str E s with
      | Some f => Ok f
      | None => Raise ValueError
      end
  end.

(** [config.getfloat('DEFAULT', key, fallback=fallback)] *)
Definition getfloat (E : env) (cfg : ConfigParser) (key : string) (fallback : pyval)
  : result pyval :=
  match Cfg.get cfg key with
  | Ok None => Ok fallback
  | Ok (Some s) =>
      match py_float E (VStr s) with
      | Ok f => Ok (VFloat f)
      | Raise e => Raise e
      end
  | Raise e => Raise e
  end.

(** ** main.py *)

Definition DEFAULT_MIN_DISTANCE : pyval := VInt 2.
Definition DEFAULT_LINE_WIDTH : pyval := VFloat 2.4.
Definition DEFAULT_LAYER_HEIGHT : pyval := VInt 1.
Definition DEFAULT_FIRST_LAYER_HEIGHT : pyval := VFloat 1.2.
Definition DEFAULT_USED_MATERIAL : pyval := VInt 0.
Definition DEFAULT_PRINTING_TIME : pyval := VInt 0.

(** The text of the [TypeError] that [MissingSectionHeaderError(file_path)]
    raises: the constructor takes a file name, a line number and a line. *)
Definition missing_arguments_text : string :=
  "MissingSectionHeaderError.__init__() missing 2 required positional arguments: 'lineno' and 'line'".

(** The body of the [try] in [read_input_parameters]: the configuration,
    or the text of the exception raised. *)
Definition read_located (files : gmap string ini_file) (file_path : string)
  : string + ConfigParser :=
  let config :=
    match files !! file_path with
    | None => inr empty_config
    | Some (IniParsed cfg) => inr cfg
    | Some (IniMalformed msg) => inl msg
    end in
  match config with
  | inl msg => inl msg
  | inr config =>
      match sections config with
      | [] => inl missing_arguments_text
      | _ :: _ => inr config
      end
  end.

(** [read_input_parameters(file_path)]: the argument is overwritten by
    what [locate] prints before it is read. *)
Definition read_input_parameters (file_path : string) : M (option ConfigParser) :=
  let* _ := emit (EvSubprocess ["locate"; "input_parameters.txt"]) in
  let* out := (fun w => (locate w, w)) in
  let file_path := PyStr.strip out in
  let* r := (fun w => (Ok (read_located (ini w) file_path), w)) in
  match r with
  | inr config => ret (Some config)
  | inl e =>
      let* _ := print ("Error reading parameters from " +:+ file_path +:+ ": " +:+ e) in
      ret None
  end.

(** The loop [for key, value in params.items(): config['DEFAULT'][key] = str(value)];
    when an assignment raises, the result is the exception alone: what
    the loop had already assigned to the caller's object is not
    represented. *)
Fixpoint set_all (E : env) (config : ConfigParser) (items : Dict.t pyval)
  : result ConfigParser :=
  match items with
  | [] => Ok config
  | (key, value) :: rest =>
      match Cfg.set_default config key (py_str E value) with
      | Ok config' => set_all E config' rest
      | Raise e => Raise e
      end
  end.

Definition update_parameters (E : env) (config : ConfigParser) (params : Dict.t pyval)
  : M ConfigParser :=
  let* config := lift (set_all E config params) in
  let* _ := write_config "input_parameters.txt" config in
  ret config.

(** The loop [for key in config['DEFAULT']: options[key] = config['DEFAULT'].get(key)] *)
Fixpoint collect_options (config : ConfigParser) (keys : list string)
  (options : gmap string pyval) : result (gmap string pyval) :=
  match keys with
  | [] => Ok options
  | key :: rest =>
      match Cfg.get config key with
      | Ok (Some value) => collect_options config rest (<[key := VStr value]> options)
      | Ok None => collect_options config rest (<[key := VNone]> options)
      | Raise e => Raise e
      end
  end.

(** The body of [parse_options_ini] on the files configparser can read;
    ['DEFAULT' in config] holds for every [ConfigParser]. *)
Definition parse_options (files : gmap string ini_file) (file_path : string)
  : result (gmap string pyval) :=
  match files !! file_path with
  | None => collect_options empty_config (Dict.keys (defaults empty_config)) ∅
  | Some (IniParsed config) => collect_options config (Dict.keys (defaults config)) ∅
  | Some (IniMalformed _) => Raise ParsingError
  end.

Definition parse_options_ini (file_path : string) : M (gmap string pyval) :=
  fun w => (parse_options (ini w) file_path, w).

(** One [if key in options: x = float(options[key])] *)
Definition override (E : env) (options : gmap string pyval) (key : string)
  (current : pyval) : result pyval :=
  match options !! key with
  | Some x =>
      match py_float E x with
      | Ok f => Ok (VFloat f)
      | Raise e => Raise e
      end
  | None => Ok current
  end.

Definition update_parameters_based_on_input (E : env)
  (options : gmap string pyval)
  (welding_speed line_width layer_height first_layer_height : pyval)
  : result (pyval * pyval * pyval * pyval) :=
  match override E options "layer_height" layer_height with
  | Raise e => Raise e
  | Ok layer_height =>
  match override E options "first_layer_height" first_layer_height with
  | Raise e => Raise e
  | Ok first_layer_height =>
  match override E options "line_width" line_width with
  | Raise e => Raise e
  | Ok line_width =>
      Ok (welding_speed, line_width, layer_height, first_layer_height)
  end end end.

(** The statistics dictionary of [parse_3d_printing_stats]. *)
Record stats := {
  estimated_printing_time : pyval;
  total_filament_cost : pyval;
  total_filament_used : pyval
}.

(** [pattern.search(line)] for a pattern that begins with [;]: the first
    semicolon after which [m] matches, with what [m] captures. *)
Fixpoint search_after_semicolon (m : string -> option string) (line : string)
  : option string :=
  match line with
  | EmptyString => None
  | String c rest =>
      if Ascii.eqb c PyStr.semicolon then
        match m rest with
        | Some g => Some g
        | None => search_after_semicolon m rest
        end
      else search_after_semicolon m rest
  end.

(** After the semicolon: blanks, the label, blanks, [=], blanks; gives the
    text that follows. *)
Definition after_label (label : string) (s : string) : option string :=
  match PyStr.strip_prefix label (PyStr.lstrip s) with
  | None => None
  | Some r =>
      match PyStr.lstrip r with
      | String c r' => if Ascii.eqb c "="%char then Some (PyStr.lstrip r') else None
      | EmptyString => None
      end
  end.

(** The group of [time_pattern], any text up to the end of the line. *)
Fixpoint rest_of_line (s : string) : string :=
  match s with
  | EmptyString => EmptyString
  | String c s' =>
      if Ascii.eqb c (ascii_of_nat 10) then EmptyString else String c (rest_of_line s')
  end.

Fixpoint digits (s : string) : string :=
  match s with
  | EmptyString => EmptyString
  | String c s' => if PyStr.is_digit c then String c (digits s') else EmptyString
  end.

Fixpoint after_digits (s : string) : string :=
  match s with
  | EmptyString => EmptyString
  | String c s' => if PyStr.is_digit c then after_digits s' else s
  end.

(** The group of the two numeric patterns: digits, an optional dot, digits. *)
Definition number (s : string) : option string :=
  match digits s with
  | EmptyString => None
  | whole =>
      match after_digits s with
      | String c s' =>
          if Ascii.eqb c "."%char then Some (whole +:+ "." +:+ digits s')
          else Some whole
      | EmptyString => Some whole
      end
  end.

Definition time_pattern (line : string) : option string :=
  search_after_semicolon
    (fun s => match after_label "estimated printing time (normal mode)" s with
              | Some r => Some (rest_of_line r)
              | None => None
              end) line.

Definition cost_pattern (line : string) : option string :=
  search_after_semicolon
    (fun s => match after_label "total filament cost" s with
              | Some r => number r
              | None => None
              end) line.

Definition filament_used_pattern (line : string) : option string :=
  search_after_semicolon
    (fun s => match after_label "total filament used [g]" s with
              | Some r => number r
              | None => None
              end) line.

(** The body of [for line in file] in [parse_3d_printing_stats]. *)
Fixpoint scan_stats (E : env) (lines : list string) (st : stats) : result stats :=
  match lines with
  | [] => Ok st
  | line :: rest =>
      let st1 :=
        match time_pattern line with
        | Some g => {| estimated_printing_time := VStr (PyStr.strip g);
                       total_filament_cost := total_filament_cost st;
                       total_filament_used := total_filament_used st |}
        | None => st
        end in
      match (match cost_pattern line with
             | Some g =>
                 match py_float E (VStr g) with
                 | Ok f => Ok {| estimated_printing_time := estimated_printing_time st1;
                                 total_filament_cost := VFloat f;
                                 total_filament_used := total_filament_used st1 |}
                 | Raise e => Raise e
                 end
             | None => Ok st1
             end) with
      | Raise e => Raise e
      | Ok st2 =>
          match (match filament_used_pattern line with
                 | Some g =>
                     match py_float E (VStr g) with
                     | Ok f => Ok {| estimated_printing_time := estimated_printing_time st2;
                                     total_filament_cost := total_filament_cost st2;
                                     total_filament_used := VFloat f |}
                     | Raise e => Raise e
                     end
                 | None => Ok st2
                 end) with
          | Raise e => Raise e
          | Ok st3 => scan_stats E rest st3
          end
      end
  end.

Definition parse_3d_printing_stats (E : env) (file_path : string) : M stats :=
  let* text := read_text file_path in
  lift (scan_stats E (PyStr.readlines text)
          {| estimated_printing_time := VNone;
             total_filament_cost := VNone;
             total_filament_used := VNone |}).

(** [pattern.match(s)] for the two patterns of [remove_semicolon_lines]: a
    tab, [; key], blanks, [=], blanks, and one non-blank character. *)
Definition match_assignment (key : string) (s : string) : bool :=
  match PyStr.strip_prefix (PyStr.tab +:+ "; " +:+ key) s with
  | None => false
  | Some r =>
      match PyStr.lstrip r with
      | String c r' =>
          if Ascii.eqb c "="%char then
            match PyStr.lstrip r' with
            | String _ _ => true
            | EmptyString => false
            end
          else false
      | EmptyString => false
      end
  end.

Definition layer_height_pattern : string -> bool := match_assignment "layer_height".
Definition first_layer_height_pattern : string -> bool :=
  match_assignment "first_layer_height".

Definition header_lines (E : env)
  (welding_speed line_width layer_height first_layer_height : pyval) (st : stats)
  : list string :=
  [ "; Welding speed = " +:+ py_str E welding_speed +:+ PyStr.newline;
    "; Line_width = " +:+ py_str E line_width +:+ PyStr.newline;
    "; Layer_height = " +:+ py_str E layer_height +:+ PyStr.newline;
    "; First_layer_height = " +:+ py_str E first_layer_height +:+ PyStr.newline;
    "Estimated_printing_time = " +:+ py_str E (estimated_printing_time st) +:+ PyStr.newline;
    "Total_filament_cost = " +:+ py_str E (total_filament_cost st) +:+ PyStr.newline;
    "Total_filament_used = " +:+ py_str E (total_filament_used st) +:+ PyStr.newline ].

(** The body of [for line in lines] in [remove_semicolon_lines]: what one
    line appends to [cleaned_lines]. *)
Definition clean_line (line : string) : list string :=
  let stripped_line := PyStr.strip line in
  if PyStr.contains PyStr.semicolon stripped_line then
    if layer_height_pattern stripped_line || first_layer_height_pattern stripped_line
    then [line]
    else
      let cleaned_line := PyStr.strip (PyStr.split_first PyStr.semicolon stripped_line) in
      match cleaned_line with
      | EmptyString => []
      | _ => [cleaned_line +:+ PyStr.newline]
      end
  else [line].

Definition cleaned_lines (lines : list string) : list string :=
  concat (map clean_line lines).

Definition remove_semicolon_lines (E : env) (input_file output_file : string)
  (welding_speed line_width layer_height first_layer_height : pyval) (st : stats)
  : M unit :=
  let* text := read_text input_file in
  let lines := PyStr.readlines text in
  write_text output_file
    (PyStr.writelines
       (header_lines E welding_speed line_width layer_height first_layer_height st
        ++ cleaned_lines lines)).

(** What click passes to [cli] besides the open file: a flag is [false]
    and any other option [None] when the command line omits it. *)
Module Args.
Record t := {
  d : bool;
  v : bool;
  mode : option string;
  min_dist : option float;
  vase_mode : option bool;
  welding_speed : option float;
  inverted : option bool;
  output : option string;
  line_width : option float;
  layer_height : option float;
  first_layer_height : option float
}.

(** A command line that names the file and nothing else. *)
Definition omitted : t :=
  {| d := false; v := false; mode := None; min_dist := None; vase_mode := None;
     welding_speed := None; inverted := None; output := None; line_width := None;
     layer_height := None; first_layer_height := None |}.
End Args.

Definition default_params : Dict.t pyval :=
  [ ("mode", VStr "Metal 3D Printing");
    ("min_dist", DEFAULT_MIN_DISTANCE);
    ("vase_mode", VBool false);
    ("welding_speed", VFloat 30.0);
    ("inverted", VBool false);
    ("output", VStr "./");
    ("line_width", DEFAULT_LINE_WIDTH);
    ("layer_height", DEFAULT_LAYER_HEIGHT);
    ("first_layer_height", DEFAULT_FIRST_LAYER_HEIGHT) ].

(** [d[key]] for a key the dictionary literal holds *)
Definition item (d : Dict.t pyval) (key : string) : pyval :=
  match Dict.get key d with
  | Some value => value
  | None => VNone
  end.

Definition default_of (key : string) : pyval := item default_params key.

(** [x or default] for an optional text *)
Definition str_or (x : option string) (default : pyval) : pyval :=
  match x with
  | Some (String c s) => VStr (String c s)
  | _ => default
  end.

(** [x if x is not None else default] *)
Definition float_or (x : option float) (default : pyval) : pyval :=
  match x with Some f => VFloat f | None => default end.

Definition bool_or (x : option bool) (default : pyval) : pyval :=
  match x with Some b => VBool b | None => default end.

Definition param_dict (a : Args.t) : Dict.t pyval :=
  [ ("mode", str_or (Args.mode a) (default_of "mode"));
    ("min_dist", float_or (Args.min_dist a) (default_of "min_dist"));
    ("vase_mode", bool_or (Args.vase_mode a) (default_of "vase_mode"));
    ("welding_speed", float_or (Args.welding_speed a) (default_of "welding_speed"));
    ("inverted", bool_or (Args.inverted a) (default_of "inverted"));
    ("output", str_or (Args.output a) (default_of "output"));
    ("line_width", float_or (Args.line_width a) (default_of "line_width"));
    ("layer_height", float_or (Args.layer_height a) (default_of "layer_height"));
    ("first_layer_height",
      float_or (Args.first_layer_height a) (default_of "first_layer_height")) ].

(** The dictionary [{mode.message: mode for mode in [FDM(), Metal(), LaserCut()]}] *)
Definition modes (E : env) : Dict.t (CLICommand (program E)) :=
  fold_left (fun acc m => Dict.set (message m) m acc) [FDM E; Metal E; LaserCut E] [].

(** The loop of [cli] over [default_params.items()] that stores the
    parameters in the configuration. *)
Fixpoint store_parameters (E : env) (config : ConfigParser) (params : Dict.t pyval)
  (items : Dict.t pyval) : result ConfigParser :=
  match items with
  | [] => Ok config
  | (key, default_value) :: rest =>
      match (match Dict.get key params with
             | None =>
                 if negb (Dict.mem (Cfg.lower key) (defaults config))
                 then Cfg.set_default config key (py_str E default_value)
                 else Ok config
             | Some value => Cfg.set_default config key (py_str E value)
             end) with
      | Ok config' => store_parameters E config' params rest
      | Raise e => Raise e
      end
  end.

(** What [cli] has in hand when it reaches the validation of the mode. *)
Record resolved := {
  r_config : ConfigParser;
  r_mode : string;
  r_min_distance : pyval;
  r_out_dir : option string;
  r_welding_speed : pyval;
  r_line_width : pyval;
  r_layer_height : pyval;
  r_first_layer_height : pyval
}.

(** [cli], from its first statement to the reads of the resolved
    parameters out of the configuration (lines 120 to 177); [None] when
    it returns early. *)
Definition cli_resolve (E : env) (a : Args.t) : M (option resolved) :=
  let* config := read_input_parameters "input_parameters.txt" in
  match config with
  | None => ret None
  | Some config =>
      let* options := parse_options_ini "options.ini" in
      let params := param_dict a in
      let* header :=
        lift (update_parameters_based_on_input E options
                (item params "welding_speed") (item params "line_width")
                (item params "layer_height") (item params "first_layer_height")) in
      let '(welding_speed, line_width, layer_height, first_layer_height) := header in
      let* config := lift (store_parameters E config params default_params) in
      let* config := update_parameters E config params in
      let* mode := lift (Cfg.get config "mode") in
      let mode := match mode with
                  | Some s => s
                  | None => "Metal 3D Printing"
                  end in
      let* min_distance := lift (getfloat E config "min_dist" (default_of "min_dist")) in
      let* use_different_output := lift (Cfg.getboolean config "use_different_output" false) in
      let* out_dir := lift (Cfg.get config "output") in
      ret (Some {| r_config := config;
                   r_mode := mode;
                   r_min_distance := min_distance;
                   r_out_dir := out_dir;
                   r_welding_speed := welding_speed;
                   r_line_width := line_width;
                   r_layer_height := layer_height;
                   r_first_layer_height := first_layer_height |})
  end.

Definition escape : string := String (ascii_of_nat 27) EmptyString.
(** [colorama.Fore.GREEN] and [colorama.Fore.RESET] *)
Definition Fore_GREEN : string := escape +:+ "[32m".
Definition Fore_RESET : string := escape +:+ "[39m".

Definition invalid_mode_text (E : env) (mode : string) : string :=
  "Error: The selected mode '" +:+ mode +:+ "' is not valid. Choose from: "
  +:+ String.concat ", " (Dict.keys (modes E)) +:+ ".".

(** [cli], from the validation of the mode to its end (lines 179 to 262). *)
Definition cli_translate (E : env) (file : text_io) (a : Args.t) (r : resolved) : M unit :=
  let filename := stem E (io_name file) in
  match Dict.get (r_mode r) (modes E) with
  | None => print (invalid_mode_text E (r_mode r))
  | Some selected_mode =>
      match py_float E (r_min_distance r) with
      | Raise ValueError => print "Error: Minimum distance must be a valid number."
      | Raise e => raise e
      | Ok min_distance =>
          let options := {| file := file; min_distance := min_distance;
                            verbose := Args.v a; params := r_config r |} in
          let* _ := emit (EvExecute (r_mode r) options) in
          let* lines_as := lift (execute selected_mode options) in
          match lines_as with
          | None => ret tt
          | Some lines_as =>
              let formatted := format_program E lines_as filename in
              let out_dir := match r_out_dir r with
                             | None => absolute_parent E (io_name file)
                             | Some dir => dir
                             end in
              let out_path := joinpath E out_dir (filename +:+ ".pg") in
              let* _ := print ("Saving generated file as " +:+ Fore_GREEN +:+ out_path
                               +:+ Fore_RESET) in
              let* _ := write_text out_path formatted in
              let* st := parse_3d_printing_stats E (io_name file) in
              remove_semicolon_lines E out_path out_path
                (r_welding_speed r) (r_line_width r) (r_layer_height r)
                (r_first_layer_height r) st
          end
      end
  end.

Definition cli (E : env) (file : text_io) (a : Args.t) : M unit :=
  let* r := cli_resolve E a in
  match r with
  | None => ret tt
  | Some r => cli_translate E file a r
  end.

(** ** PathSimplifier *)

Module PathSimplifier.

Local Open Scope R_scope.

Record Waypoint := {
  wx : R;
  wy : R;
  wz : R;
  tool_active : bool
}.

Definition distance (p q : Waypoint) : R :=
  sqrt ((wx p - wx q) * (wx p - wx q)
        + (wy p - wy q) * (wy p - wy q)
        + (wz p - wz q) * (wz p - wz q)).

(** A change of tool activation between two consecutive waypoints. *)
Definition transition (p q : Waypoint) : bool :=
  negb (Bool.eqb (tool_active p) (tool_active q)).

(** Modelled from the spec: the [gcode2as] simplifier is not part of
    main.py.  One greedy pass that remembers the last retained waypoint
    [kept] and the previous input waypoint [prev]: a waypoint next to a
    change of tool activation, and the last waypoint, are retained; any
    other waypoint is dropped when it lies closer than [d] to [kept]. *)
Fixpoint simplify_from (d : R) (kept prev : Waypoint) (pts : list Waypoint)
  : list Waypoint :=
  match pts with
  | [] => []
  | p :: rest =>
      match rest with
      | [] => [p]
      | next :: _ =>
          if transition prev p || transition p next
          then p :: simplify_from d p p rest
          else if Rlt_dec (distance p kept) d
               then simplify_from d kept p rest
               else p :: simplify_from d p p rest
      end
  end.

(** Modelled from the spec: the simplifier of section 4.3; the first
    waypoint is always retained, the rest goes through the greedy pass. *)
Definition simplify (d : R) (pts : list Waypoint) : list Waypoint :=
  match pts with
  | [] => []
  | p :: rest => p :: simplify_from d p p rest
  end.

End PathSimplifier.

(** ** A concrete setting for examples *)

Module Sample.

(** Python's [str] on the floats the examples use. *)
Definition repr (f : float) : string :=
  if PrimFloat.eqb f 30.0 then "30.0"
  else if PrimFloat.eqb f 2.4 then "2.4"
  else if PrimFloat.eqb f 1.2 then "1.2"
  else if PrimFloat.eqb f 2 then "2.0"
  else if PrimFloat.eqb f 3 then "3.0"
  else if PrimFloat.eqb f 5 then "5.0"
  else if PrimFloat.eqb f (-1) then "-1.0"
  else if PrimFloat.eqb f 0.5 then "0.5"
  else "nan".

(** Python's [float] on the texts the examples use. *)
Definition parse (s : string) : option float :=
  if String.eqb s "30.0" then Some 30.0%float
  else if String.eqb s "2.4" then Some 2.4%float
  else if String.eqb s "1.2" then Some 1.2%float
  else if String.eqb s "2" then Some 2%float
  else if String.eqb s "2.0" then Some 2%float
  else if String.eqb s "3.0" then Some 3%float
  else if String.eqb s "5" then Some 5%float
  else if String.eqb s "5.0" then Some 5%float
  else if String.eqb s "-1.0" then Some (-1)%float
  else if String.eqb s "0.5" then Some 0.5%float
  else None.

(** A translation that returns the source lines, and nothing for an
    empty source. *)
Definition echo (opts : CLICommandOptions) : result (option (list string)) :=
  match io_text (file opts) with
  | EmptyString => Ok None
  | text => Ok (Some (PyStr.readlines text))
  end.

Definition E : env :=
  {| program := list string;
     FDM := {| message := "FDM 3D Printing"; execute := echo |};
     Metal := {| message := "Metal 3D Printing"; execute := echo |};
     LaserCut := {| message := "Laser Cutting"; execute := echo |};
     format_program := fun lines _ => PyStr.writelines lines;
     str_float := repr;
     float_of_str := parse;
     stem := PyStr.split_first "."%char;
     absolute_parent := fun _ => "/work";
     joinpath := fun dir name => dir +:+ name |}.

(** A parameter file with one named section and a stored line width. *)
Definition parameters : ConfigParser :=
  {| defaults := [("line_width", "9.0"); ("travel_speed", "100")];
     sections := [("printer", [])] |}.

Definition source : text_io :=
  {| io_name := "part.gcode";
     io_text := "G1 X1 ; move" +:+ PyStr.newline +:+ "; only a comment" +:+ PyStr.newline
                +:+ "G1 X2" +:+ PyStr.newline |}.

Definition empty_source : text_io := {| io_name := "part.gcode"; io_text := "" |}.

(** A machine where [locate] finds the parameter file and there is no
    [options.ini]. *)
Definition w0 : world :=
  {| locate := Ok ("/etc/duplex/input_parameters.txt" +:+ PyStr.newline);
     ini := {[ "/etc/duplex/input_parameters.txt" := IniParsed parameters ]};
     txt := {[ "part.gcode" := io_text source ]};
     log := [] |}.

(** The same machine with an [options.ini] that sets the line width. *)
Definition w_options : world :=
  {| locate := locate w0;
     ini := <[ "options.ini" :=
                 IniParsed {| defaults := [("line_width", "5")]; sections := [] |} ]>
              (ini w0);
     txt := txt w0;
     log := [] |}.

(** The same machine with another parameter file at the located path. *)
Definition w_other : world :=
  {| locate := locate w0;
     ini := {[ "/etc/duplex/input_parameters.txt" :=
                 IniParsed {| defaults := [("travel_speed", "250")];
                              sections := [("printer", [])] |} ]};
     txt := txt w0;
     log := [] |}.

(** A machine where [locate] exits with an error. *)
Definition w_no_locate : world :=
  {| locate := Raise CalledProcessError; ini := ini w0; txt := txt w0; log := [] |}.

(** A machine where the located file has no named section. *)
Definition w_no_section : world :=
  {| locate := locate w0;
     ini := {[ "/etc/duplex/input_parameters.txt" :=
                 IniParsed {| defaults := [("line_width", "9.0")]; sections := [] |} ]};
     txt := txt w0;
     log := [] |}.


Definition with_min_dist (x : float) : Args.t :=
  {| Args.d := false; Args.v := false; Args.mode := None; Args.min_dist := Some x;
     Args.vase_mode := None; Args.welding_speed := None; Args.inverted := None;
     Args.output := None; Args.line_width := None; Args.layer_height := None;
     Args.first_layer_height := None |}.

Definition with_mode (m : string) : Args.t :=
  {| Args.d := false; Args.v := false; Args.mode := Some m; Args.min_dist := None;
     Args.vase_mode := None; Args.welding_speed := None; Args.inverted := None;
     Args.output := None; Args.line_width := None; Args.layer_height := None;
     Args.first_layer_height := None |}.

(** What [cli] has resolved when it reaches the validation of the mode,
    for the runs of the examples, which all get that far. *)
Definition resolution (a : Args.t) (w : world) : resolved :=
  match fst (cli_resolve E a w) with
  | Ok (Some r) => r
  | _ => {| r_config := empty_config; r_mode := ""; r_min_distance := VNone;
            r_out_dir := None; r_welding_speed := VNone; r_line_width := VNone;
            r_layer_height := VNone; r_first_layer_height := VNone |}
  end.

End Sample.

(** ** Vocabulary of the statements *)

(** An event that neither calls a mode nor writes a text file. *)
Definition quiet (e : event) : bool :=
  match e with
  | EvExecute _ _ | EvWriteText _ _ => false
  | _ => true
  end.

Definition is_execute (e : event) : bool :=
  match e with EvExecute _ _ => true | _ => false end.

Definition is_write_text (e : event) : bool :=
  match e with EvWriteText _ _ => true | _ => false end.

(** The options of the first call of a mode in a log. *)
Fixpoint executed (evs : list event) : option CLICommandOptions :=
  match evs with
  | [] => None
  | EvExecute _ opts :: _ => Some opts
  | _ :: rest => executed rest
  end.

(** [w] with more events in its log. *)
Definition logged (evs : list event) (w : world) : world :=
  {| locate := locate w; ini := ini w; txt := txt w; log := log w ++ evs |}.

(** A computation that only adds events to the log. *)
Definition appends {A} (m : M A) : Prop :=
  forall w, exists evs, log (snd (m w)) = log w ++ evs.

(** The world in which [cli] validates the mode: [locate] has run and the
    resolved configuration has been written to [input_parameters.txt]. *)
Definition resolved_world (w : world) (config : ConfigParser) : world :=
  {| locate := locate w;
     ini := <["input_parameters.txt" := IniParsed config]> (ini w);
     txt := txt w;
     log := log w ++ [EvSubprocess ["locate"; "input_parameters.txt"];
                      EvWriteConfig "input_parameters.txt" config] |}.

(** The value a command-line flag supplies for a parameter, [None] when
    the flag is left out or, for the two texts, given empty. *)
Definition supplied (a : Args.t) (key : string) : option pyval :=
  if String.eqb key "mode" then
    match Args.mode a with Some (String c s) => Some (VStr (String c s)) | _ => None end
  else if String.eqb key "min_dist" then option_map VFloat (Args.min_dist a)
  else if String.eqb key "vase_mode" then option_map VBool (Args.vase_mode a)
  else if String.eqb key "welding_speed" then option_map VFloat (Args.welding_speed a)
  else if String.eqb key "inverted" then option_map VBool (Args.inverted a)
  else if String.eqb key "output" then
    match Args.output a with Some (String c s) => Some (VStr (String c s)) | _ => None end
  else if String.eqb key "line_width" then option_map VFloat (Args.line_width a)
  else if String.eqb key "layer_height" then option_map VFloat (Args.layer_height a)
  else if String.eqb key "first_layer_height" then
    option_map VFloat (Args.first_layer_height a)
  else None.

(** Whether [options.ini] gives a value to [key]. *)
Definition options_ini_defines (w : world) (key : string) : bool :=
  match ini w !! "options.ini" with
  | Some (IniParsed config) => Dict.mem key (defaults config)
  | _ => false
  end.

(** ** What the text pass is meant to do, line by line *)

(** [retains lines out]: [out] is [lines] where each line without a
    semicolon is kept as it is, and each line with one is replaced by the
    trimmed text before its first semicolon, or dropped when that text is
    empty. *)
Inductive retains : list string -> list string -> Prop :=
| retains_nil : retains [] []
| retains_plain line lines out :
    PyStr.contains PyStr.semicolon line = false ->
    retains lines out ->
    retains (line :: lines) (line :: out)
| retains_code pre post lines out :
    PyStr.contains PyStr.semicolon pre = false ->
    PyStr.strip pre <> EmptyString ->
    retains lines out ->
    retains ((pre +:+ String PyStr.semicolon post) :: lines)
            ((PyStr.strip pre +:+ PyStr.newline) :: out)
| retains_comment pre post lines out :
    PyStr.contains PyStr.semicolon pre = false ->
    PyStr.strip pre = EmptyString ->
    retains lines out ->
    retains ((pre +:+ String PyStr.semicolon post) :: lines) out.

(** ** Vocabulary of the further properties *)

(** The statistics [parse_3d_printing_stats] starts from. *)
Definition no_stats : stats :=
  {| estimated_printing_time := VNone;
     total_filament_cost := VNone;
     total_filament_used := VNone |}.

(** The path of the program file that [cli] writes for a source file. *)
Definition program_path (E : env) (file : text_io) (r : resolved) : string :=
  joinpath E
    match r_out_dir r with
    | None => absolute_parent E (io_name file)
    | Some dir => dir
    end
    (stem E (io_name file) +:+ ".pg").

(** A computation whose events all satisfy [P]. *)
Definition emits (P : event -> bool) {A} (m : M A) : Prop :=
  forall w, exists evs, log (snd (m w)) = log w ++ evs /\ forallb P evs = true.

(** A computation that leaves [locate] and the configuration files alone
    and changes no text file other than [path]. *)
Definition keeps_files (path : string) {A} (m : M A) : Prop :=
  forall w,
    locate (snd (m w)) = locate w
    /\ ini (snd (m w)) = ini w
    /\ forall p, p <> path -> txt (snd (m w)) !! p = txt w !! p.

(** All the characters of a text satisfy [P]. *)
Fixpoint all_chars (P : ascii -> bool) (s : string) : bool :=
  match s with
  | EmptyString => true
  | String c s' => P c && all_chars P s'
  end.

Definition is_write_config (e : event) : bool :=
  match e with EvWriteConfig _ _ => true | _ => false end.

(** An event that the rest of a run may add once the mode has been
    called: neither a write of a configuration nor another call. *)
Definition after_call (e : event) : bool :=
  negb (is_write_config e) && negb (is_execute e).

(** Further machines and inputs for examples. *)
Module Cases.

(** The sample setting with the modes named as section 6 of the
    specification names them. *)
Definition E_spec : env :=
  {| program := list string;
     FDM := {| message := "FDM"; execute := Sample.echo |};
     Metal := {| message := "Metal"; execute := Sample.echo |};
     LaserCut := {| message := "LaserCut"; execute := Sample.echo |};
     format_program := fun lines _ => PyStr.writelines lines;
     str_float := Sample.repr;
     float_of_str := Sample.parse;
     stem := PyStr.split_first "."%char;
     absolute_parent := fun _ => "/work";
     joinpath := fun dir name => dir +:+ name |}.

(** A program text without any semicolon, with a CR LF line end. *)
Definition plain_text : string :=
  "G1 X1" +:+ String (ascii_of_nat 13) PyStr.newline +:+ "G1 X2".

Definition w_plain : world :=
  {| locate := locate Sample.w0; ini := ini Sample.w0;
     txt := {[ "plain.pg" := plain_text ]}; log := [] |}.

(** A machine whose [options.ini] gives a layer height that is no number. *)
Definition w_bad_options : world :=
  {| locate := locate Sample.w0;
     ini := <[ "options.ini" :=
                 IniParsed {| defaults := [("layer_height", "thick")]; sections := [] |} ]>
              (ini Sample.w0);
     txt := txt Sample.w0;
     log := [] |}.

(** A slicer file with its statistics in comments. *)
Definition sliced : list string :=
  [ "G1 X1 E1" +:+ PyStr.newline;
    "; estimated printing time (normal mode) = 1h 2m" +:+ PyStr.newline;
    "; total filament cost = 2.0" +:+ PyStr.newline ].

End Cases.

(** * Properties *)

(** ** Text primitives *)

Section TextFacts.

Import PyStr.

Lemma contains_app c s t :
  contains c (s +:+ t) = contains c s || contains c t.
Proof.
  induction s as [|a s IH]; simpl; [reflexivity|].
  destruct (Ascii.eqb a c); simpl; auto.
Qed.

Lemma lstrip_head c r s : lstrip s = String c r -> is_space c = false.
Proof.
  induction s as [|a s IH]; simpl; [discriminate|].
  destruct (is_space a) eqn:Ha; [exact IH|].
  intros [= <- _]. exact Ha.
Qed.

Lemma rstrip_head c r s : rstrip s = String c r -> exists s', s = String c s'.
Proof.
  destruct s as [|a s]; simpl; [discriminate|].
  destruct (rstrip s); [destruct (is_space a)|]; intros [= <- _]; eauto.
Qed.

(** A stripped text never begins with a blank. *)
Lemma strip_head c r s : strip s = String c r -> is_space c = false.
Proof.
  unfold strip. intros H.
  destruct (rstrip_head _ _ _ H) as [s' Hs'].
  exact (lstrip_head _ _ _ Hs').
Qed.

Lemma lstrip_idempotent s : lstrip (lstrip s) = lstrip s.
Proof.
  induction s as [|a s IH]; simpl; [reflexivity|].
  destruct (is_space a) eqn:Ha; [exact IH|]. simpl. now rewrite Ha.
Qed.

Lemma contains_lstrip c s :
  is_space c = false -> contains c (lstrip s) = contains c s.
Proof.
  intros Hc. induction s as [|a s IH]; simpl; [reflexivity|].
  destruct (is_space a) eqn:Ha; [|reflexivity].
  rewrite IH. destruct (Ascii.eqb_spec a c) as [->|]; [congruence|reflexivity].
Qed.

Lemma contains_rstrip c s :
  is_space c = false -> contains c (rstrip s) = contains c s.
Proof.
  intros Hc. induction s as [|a s IH]; simpl; [reflexivity|].
  destruct (rstrip s) as [|b r] eqn:Hr.
  - simpl in IH. rewrite <- IH.
    destruct (is_space a) eqn:Ha; simpl.
    + destruct (Ascii.eqb_spec a c) as [->|]; [congruence|reflexivity].
    + destruct (Ascii.eqb a c); reflexivity.
  - rewrite <- IH. simpl. reflexivity.
Qed.

Lemma contains_strip c s :
  is_space c = false -> contains c (strip s) = contains c s.
Proof.
  intros Hc. unfold strip. now rewrite contains_rstrip, contains_lstrip.
Qed.

Lemma contains_split_first c s : contains c (split_first c s) = false.
Proof.
  induction s as [|a s IH]; simpl; [reflexivity|].
  destruct (Ascii.eqb a c) eqn:Ha; simpl; [reflexivity|]. now rewrite Ha.
Qed.

Lemma split_first_app c pre post :
  contains c pre = false -> split_first c (pre +:+ String c post) = pre.
Proof.
  induction pre as [|a pre IH]; simpl.
  - now rewrite Ascii.eqb_refl.
  - destruct (Ascii.eqb a c); [discriminate|]. intros H. now rewrite IH.
Qed.

Lemma split_first_lstrip c s :
  is_space c = false -> split_first c (lstrip s) = lstrip (split_first c s).
Proof.
  intros Hc. induction s as [|a s IH]; simpl; [reflexivity|].
  destruct (is_space a) eqn:Ha.
  - destruct (Ascii.eqb_spec a c) as [->|]; [congruence|].
    simpl. now rewrite Ha.
  - simpl. destruct (Ascii.eqb a c); simpl; [reflexivity|]. now rewrite Ha.
Qed.

Lemma split_first_rstrip c s :
  is_space c = false -> contains c s = true ->
  split_first c (rstrip s) = split_first c s.
Proof.
  intros Hc. induction s as [|a s IH]; simpl; [discriminate|].
  destruct (Ascii.eqb a c) eqn:Ha.
  - intros _. apply Ascii.eqb_eq in Ha. subst a.
    destruct (rstrip s); [rewrite Hc|]; simpl; now rewrite Ascii.eqb_refl.
  - intros Hs. specialize (IH Hs).
    assert (Hr : contains c (rstrip s) = true) by now rewrite contains_rstrip.
    destruct (rstrip s) as [|b r] eqn:Er; [discriminate|].
    simpl. rewrite Ha. simpl in IH. now rewrite IH.
Qed.

(** Trimming a line before cutting it at its first semicolon gives the
    same text as cutting first. *)
Lemma strip_split_first_strip s :
  contains semicolon s = true ->
  strip (split_first semicolon (strip s)) = strip (split_first semicolon s).
Proof.
  intros Hs. unfold strip at 2.
  rewrite split_first_rstrip by
    (try reflexivity; now rewrite contains_lstrip by reflexivity).
  rewrite split_first_lstrip by reflexivity.
  unfold strip. now rewrite lstrip_idempotent.
Qed.

Lemma strip_prefix_head a p s r :
  strip_prefix (String a p) s = Some r -> exists s', s = String a s'.
Proof.
  destruct s as [|b s]; simpl; [discriminate|].
  destruct (Ascii.eqb_spec a b) as [->|]; [eauto|discriminate].
Qed.

End TextFacts.

(** ** The text pass *)

Section TextPass.

Import PyStr.

Lemma match_assignment_stripped key s : match_assignment key (strip s) = false.
Proof.
  unfold match_assignment.
  destruct (strip_prefix (tab +:+ "; " +:+ key) (strip s)) as [r|] eqn:Hp;
    [|reflexivity].
  apply strip_prefix_head in Hp as [s' Hs'].
  apply strip_head in Hs'. discriminate.
Qed.

Lemma split_at_first c s :
  contains c s = true -> exists post, s = split_first c s +:+ String c post.
Proof.
  induction s as [|a s IH]; simpl; [discriminate|].
  destruct (Ascii.eqb_spec a c) as [->|Hne].
  - intros _. now exists s.
  - intros Hs. destruct (IH Hs) as [post Hpost]. exists post.
    change (String a s = String a (split_first c s +:+ String c post)).
    f_equal. exact Hpost.
Qed.

Lemma clean_line_plain line :
  contains semicolon line = false -> clean_line line = [line].
Proof.
  intros H. unfold clean_line.
  now rewrite contains_strip, H by reflexivity.
Qed.

Lemma clean_line_semicolon pre post :
  contains semicolon pre = false ->
  clean_line (pre +:+ String semicolon post) =
    match strip pre with
    | EmptyString => []
    | text => [text +:+ newline]
    end.
Proof.
  intros Hpre. unfold clean_line.
  assert (Hc : contains semicolon (pre +:+ String semicolon post) = true).
  { rewrite contains_app. simpl. now rewrite Bool.orb_true_r. }
  rewrite contains_strip, Hc by reflexivity.
  unfold layer_height_pattern, first_layer_height_pattern.
  rewrite !match_assignment_stripped. simpl.
  rewrite strip_split_first_strip by exact Hc.
  rewrite split_first_app by exact Hpre.
  now destruct (strip pre).
Qed.

Lemma cleaned_lines_cons line lines :
  cleaned_lines (line :: lines) = (clean_line line ++ cleaned_lines lines)%list.
Proof. reflexivity. Qed.

Lemma cleaned_lines_retains lines : retains lines (cleaned_lines lines).
Proof.
  induction lines as [|line lines IH]; [constructor|].
  rewrite cleaned_lines_cons.
  destruct (contains semicolon line) eqn:Hc.
  - destruct (split_at_first _ _ Hc) as [post Hpost].
    pose proof (contains_split_first semicolon line) as Hpre.
    rewrite Hpost at 1 2.
    rewrite clean_line_semicolon by exact Hpre.
    destruct (strip (split_first semicolon line)) as [|a t] eqn:Ht.
    + simpl. now apply retains_comment.
    + simpl. rewrite <- Ht. apply retains_code; [exact Hpre| |exact IH].
      rewrite Ht. discriminate.
  - rewrite clean_line_plain by exact Hc. simpl. now apply retains_plain.
Qed.

Lemma clean_line_no_semicolon line :
  Forall (fun l => contains semicolon l = false) (clean_line line).
Proof.
  unfold clean_line.
  destruct (contains semicolon (strip line)) eqn:Hc.
  - unfold layer_height_pattern, first_layer_height_pattern.
    rewrite !match_assignment_stripped. simpl.
    destruct (strip (split_first semicolon (strip line))) as [|a t] eqn:Ht;
      constructor; [|constructor].
    rewrite contains_app, <- Ht, contains_strip by reflexivity.
    now rewrite contains_split_first.
  - constructor; [|constructor].
    now rewrite contains_strip in Hc by reflexivity.
Qed.

Lemma cleaned_lines_no_semicolon lines :
  Forall (fun l => contains semicolon l = false) (cleaned_lines lines).
Proof.
  induction lines as [|line lines IH]; [constructor|].
  rewrite cleaned_lines_cons. apply Forall_app. split; [|exact IH].
  apply clean_line_no_semicolon.
Qed.

Lemma writelines_no_semicolon ls :
  Forall (fun l => contains semicolon l = false) ls ->
  contains semicolon (writelines ls) = false.
Proof.
  induction 1 as [|l ls Hl _ IH]; [reflexivity|].
  simpl. now rewrite contains_app, Hl, IH.
Qed.

(** C7. [remove_semicolon_lines] rewrites the output as the seven header
    lines (welding speed, line width, the two layer heights and the three
    scraped statistics) followed by the cleaned input: a line without a
    semicolon is kept unchanged and in place, a line with a semicolon is
    replaced by the trimmed text before its first semicolon and dropped
    when that text is empty. *)
Theorem remove_semicolon_lines_header_and_body
  (E : env) (input_file output_file : string)
  (welding_speed line_width layer_height first_layer_height : pyval)
  (st : stats) (text : string) (w : world) :
  txt w !! input_file = Some text ->
  exists body,
    let written :=
      writelines
        ([ "; Welding speed = " +:+ py_str E welding_speed +:+ newline;
           "; Line_width = " +:+ py_str E line_width +:+ newline;
           "; Layer_height = " +:+ py_str E layer_height +:+ newline;
           "; First_layer_height = " +:+ py_str E first_layer_height +:+ newline;
           "Estimated_printing_time = " +:+ py_str E (estimated_printing_time st)
           +:+ newline;
           "Total_filament_cost = " +:+ py_str E (total_filament_cost st) +:+ newline;
           "Total_filament_used = " +:+ py_str E (total_filament_used st) +:+ newline ]
         ++ body) in
    remove_semicolon_lines E input_file output_file welding_speed line_width
      layer_height first_layer_height st w
    = (Ok tt, {| locate := locate w; ini := ini w;
                 txt := <[output_file := written]> (txt w);
                 log := log w ++ [EvWriteText output_file written] |})
    /\ retains (readlines text) body.
Proof.
  intros Hin. exists (cleaned_lines (readlines text)). split.
  - unfold remove_semicolon_lines, bind, read_text, write_text.
    now rewrite Hin.
  - apply cleaned_lines_retains.
Qed.

Lemma remove_semicolon_lines_header_and_body_witness :
  txt Sample.w0 !! "part.gcode" = Some (io_text Sample.source) /\
  exists body,
    txt (snd (remove_semicolon_lines Sample.E "part.gcode" "part.pg"
                (VFloat 30.0) (VFloat 2.4) (VInt 1) (VFloat 1.2)
                {| estimated_printing_time := VNone; total_filament_cost := VNone;
                   total_filament_used := VNone |} Sample.w0)) !! "part.pg"
    = Some (writelines
              ([ "; Welding speed = 30.0" +:+ newline;
                 "; Line_width = 2.4" +:+ newline;
                 "; Layer_height = 1" +:+ newline;
                 "; First_layer_height = 1.2" +:+ newline;
                 "Estimated_printing_time = None" +:+ newline;
                 "Total_filament_cost = None" +:+ newline;
                 "Total_filament_used = None" +:+ newline ] ++ body))
    /\ retains (readlines (io_text Sample.source)) body.
Proof.
  split; [reflexivity|].
  destruct (remove_semicolon_lines_header_and_body Sample.E "part.gcode" "part.pg"
              (VFloat 30.0) (VFloat 2.4) (VInt 1) (VFloat 1.2)
              {| estimated_printing_time := VNone; total_filament_cost := VNone;
                 total_filament_used := VNone |} (io_text Sample.source) Sample.w0
              eq_refl) as [body [Hrun Hbody]].
  exists body. split; [|exact Hbody].
  simpl in Hrun. rewrite Hrun. cbn [snd txt]. now rewrite lookup_insert_eq.
Defined.

(** C10. The branch of [remove_semicolon_lines] that would keep a
    [; layer_height = ...] or [; first_layer_height = ...] line is never
    taken: both patterns need a leading tab and are matched against the
    stripped line.  So no line after the header contains a semicolon. *)
Theorem preserved_comment_branch_unreachable :
  (forall line,
      layer_height_pattern (strip line) = false /\
      first_layer_height_pattern (strip line) = false) /\
  (forall lines,
      Forall (fun l => contains semicolon l = false) (cleaned_lines lines) /\
      contains semicolon (writelines (cleaned_lines lines)) = false).
Proof.
  split.
  - intros line. split; apply match_assignment_stripped.
  - intros lines. split.
    + apply cleaned_lines_no_semicolon.
    + apply writelines_no_semicolon, cleaned_lines_no_semicolon.
Qed.

End TextPass.

(** ** Dictionaries and configparser *)

Section StoreFacts.

Lemma Dict_get_set_eq {V} k (v : V) d : Dict.get k (Dict.set k v d) = Some v.
Proof.
  induction d as [|[k' v'] d IH]; simpl.
  - now rewrite String.eqb_refl.
  - destruct (String.eqb k' k) eqn:Hk; simpl.
    + now rewrite String.eqb_refl.
    + now rewrite Hk.
Qed.

Lemma Dict_get_set_ne {V} k k' (v : V) d :
  k <> k' -> Dict.get k' (Dict.set k v d) = Dict.get k' d.
Proof.
  intros Hne. induction d as [|[k0 v0] d IH]; simpl.
  - destruct (String.eqb_spec k k'); [contradiction|reflexivity].
  - destruct (String.eqb_spec k0 k) as [->|Hk]; simpl.
    + destruct (String.eqb_spec k k'); [contradiction|reflexivity].
    + destruct (String.eqb k0 k'); [reflexivity|exact IH].
Qed.

Lemma scan_plain deeper m fuel s :
  String.length s <= fuel ->
  PyStr.contains Cfg.percent s = false ->
  Cfg.scan deeper m fuel s = Ok s.
Proof.
  revert s. induction fuel as [|fuel IH]; intros [|c s]; simpl; try reflexivity.
  - lia.
  - intros Hlen. destruct (Ascii.eqb c Cfg.percent); [discriminate|].
    intros Hs. simpl. rewrite IH; [reflexivity|lia|exact Hs].
Qed.

(** A value without a percent sign is its own interpolation. *)
Lemma interpolate_plain levels m v :
  PyStr.contains Cfg.percent v = false ->
  Cfg.interpolate_some (S levels) m v = Ok v.
Proof. intros Hv. simpl. now apply scan_plain. Qed.

Lemma get_plain cfg key v :
  Dict.get (Cfg.lower key) (defaults cfg) = Some v ->
  PyStr.contains Cfg.percent v = false ->
  Cfg.get cfg key = Ok (Some v).
Proof.
  intros Hk Hv. unfold Cfg.get. rewrite Hk.
  unfold Cfg.MAX_INTERPOLATION_DEPTH. now rewrite interpolate_plain.
Qed.

Lemma set_default_inv cfg key value cfg' :
  Cfg.set_default cfg key value = Ok cfg' ->
  defaults cfg' = Dict.set (Cfg.lower key) value (defaults cfg)
  /\ sections cfg' = sections cfg.
Proof.
  unfold Cfg.set_default.
  destruct (match value with EmptyString => true | _ => Cfg.before_set value end);
    [|discriminate].
  intros [= <-]. split; reflexivity.
Qed.

Variable E : env.

Lemma set_all_get_other items : forall cfg cfg' key,
  set_all E cfg items = Ok cfg' ->
  key ∉ map (fun kv => Cfg.lower (fst kv)) items ->
  Dict.get key (defaults cfg') = Dict.get key (defaults cfg).
Proof.
  induction items as [|[k v] items IH]; simpl; intros cfg cfg' key.
  - now intros [= <-].
  - destruct (Cfg.set_default cfg k (py_str E v)) as [c|e] eqn:Hs; [|discriminate].
    intros H Hnot. apply not_elem_of_cons in Hnot as [Hne Hnot].
    rewrite (IH _ _ _ H Hnot).
    apply set_default_inv in Hs as [Hs _]. rewrite Hs.
    apply Dict_get_set_ne. congruence.
Qed.

(** After the loop, the configuration holds the text of each assigned
    value under its key. *)
Lemma set_all_get items : forall cfg cfg' key value,
  set_all E cfg items = Ok cfg' ->
  NoDup (map (fun kv => Cfg.lower (fst kv)) items) ->
  In (key, value) items ->
  Dict.get (Cfg.lower key) (defaults cfg') = Some (py_str E value).
Proof.
  induction items as [|[k v] items IH]; simpl; intros cfg cfg' key value;
    [intros _ _ []|].
  destruct (Cfg.set_default cfg k (py_str E v)) as [c|e] eqn:Hs; [|discriminate].
  intros H Hnd [Heq|Hin].
  - injection Heq as -> ->. inversion Hnd as [|? ? Hnot Hnd']; subst.
    rewrite (set_all_get_other _ _ _ _ H Hnot).
    apply set_default_inv in Hs as [Hs _]. rewrite Hs.
    apply Dict_get_set_eq.
  - inversion Hnd as [|? ? Hnot Hnd']; subst. now apply (IH c).
Qed.

Lemma store_parameters_param_dict a cfg :
  store_parameters E cfg (param_dict a) default_params = set_all E cfg (param_dict a).
Proof. reflexivity. Qed.

Lemma param_dict_keys a :
  map (fun kv => Cfg.lower (fst kv)) (param_dict a) =
    ["mode"; "min_dist"; "vase_mode"; "welding_speed"; "inverted"; "output";
     "line_width"; "layer_height"; "first_layer_height"].
Proof. reflexivity. Qed.

Lemma param_dict_NoDup a :
  NoDup (map (fun kv => Cfg.lower (fst kv)) (param_dict a)).
Proof.
  rewrite param_dict_keys.
  apply (bool_decide_unpack _). vm_compute. exact I.
Qed.

End StoreFacts.

(** ** Runs of the driver *)

Ltac run_step :=
  cbv beta iota zeta; cbn [ini txt locate log logged fst snd]; try discriminate.

Ltac quiet_end :=
  intros [= <- <-]; cbn [txt log logged]; split; [reflexivity|];
  rewrite <- ?app_assoc; eexists; split; [reflexivity|reflexivity].

Section RunFacts.

Variable E : env.

Lemma emit_logged e w : emit e w = (Ok tt, logged [e] w).
Proof. reflexivity. Qed.

Lemma read_input_parameters_eq file_path w :
  read_input_parameters file_path w =
    match locate w with
    | Raise e => (Raise e, logged [EvSubprocess ["locate"; "input_parameters.txt"]] w)
    | Ok out =>
        match read_located (ini w) (PyStr.strip out) with
        | inr config =>
            (Ok (Some config),
             logged [EvSubprocess ["locate"; "input_parameters.txt"]] w)
        | inl e =>
            (Ok None,
             logged [EvSubprocess ["locate"; "input_parameters.txt"];
                     EvPrint ("Error reading parameters from " +:+ PyStr.strip out
                              +:+ ": " +:+ e)] w)
        end
    end.
Proof.
  unfold read_input_parameters, bind, emit, print, ret, logged. simpl.
  destruct (locate w) as [out|e]; [|reflexivity].
  destruct (read_located (ini w) (PyStr.strip out)); [|reflexivity].
  simpl. now rewrite <- app_assoc.
Qed.

(** What a successful resolution went through. *)
Lemma cli_resolve_inv a w r w1 :
  cli_resolve E a w = (Ok (Some r), w1) ->
  exists out cfg0 cfg1 options,
    locate w = Ok out
    /\ read_located (ini w) (PyStr.strip out) = inr cfg0
    /\ parse_options (ini w) "options.ini" = Ok options
    /\ update_parameters_based_on_input E options
         (item (param_dict a) "welding_speed") (item (param_dict a) "line_width")
         (item (param_dict a) "layer_height") (item (param_dict a) "first_layer_height")
       = Ok (r_welding_speed r, r_line_width r, r_layer_height r, r_first_layer_height r)
    /\ set_all E cfg0 (param_dict a) = Ok cfg1
    /\ set_all E cfg1 (param_dict a) = Ok (r_config r)
    /\ (exists m, Cfg.get (r_config r) "mode" = Ok m
                  /\ r_mode r = match m with Some s => s | None => "Metal 3D Printing" end)
    /\ getfloat E (r_config r) "min_dist" (default_of "min_dist") = Ok (r_min_distance r)
    /\ (exists b, Cfg.getboolean (r_config r) "use_different_output" false = Ok b)
    /\ Cfg.get (r_config r) "output" = Ok (r_out_dir r)
    /\ w1 = resolved_world w (r_config r).
Proof.
  cbv beta iota zeta delta
    [cli_resolve parse_options_ini update_parameters write_config bind lift ret].
  rewrite read_input_parameters_eq.
  destruct (locate w) as [out|e] eqn:Hloc; run_step.
  destruct (read_located (ini w) (PyStr.strip out)) as [msg|cfg0] eqn:Hread; run_step.
  destruct (parse_options (ini w) "options.ini") as [options|e] eqn:Hopt; run_step.
  destruct (update_parameters_based_on_input E options _ _ _ _)
    as [[[[ws lw] lh] flh]|e] eqn:Hup; run_step.
  rewrite store_parameters_param_dict.
  destruct (set_all E cfg0 (param_dict a)) as [cfg1|e] eqn:Hs1; run_step.
  destruct (set_all E cfg1 (param_dict a)) as [cfg2|e] eqn:Hs2; run_step.
  destruct (Cfg.get cfg2 "mode") as [m|e] eqn:Hmode; run_step.
  destruct (getfloat E cfg2 "min_dist" (default_of "min_dist")) as [md|e] eqn:Hmd;
    run_step.
  destruct (Cfg.getboolean cfg2 "use_different_output" false) as [b|e] eqn:Hb;
    run_step.
  destruct (Cfg.get cfg2 "output") as [od|e] eqn:Hout; run_step.
  intros [= <- <-]. cbn [r_config r_mode r_min_distance r_out_dir r_welding_speed
                          r_line_width r_layer_height r_first_layer_height].
  exists out, cfg0, cfg1, options.
  repeat split; try assumption; try reflexivity; eauto.
  unfold resolved_world. cbn [locate ini txt log]. now rewrite <- app_assoc.
Qed.

(** Resolution, however it ends, calls no mode and writes no text file. *)
Lemma cli_resolve_quiet a w res w1 :
  cli_resolve E a w = (res, w1) ->
  txt w1 = txt w /\ exists evs, log w1 = log w ++ evs /\ forallb quiet evs = true.
Proof.
  cbv beta iota zeta delta
    [cli_resolve parse_options_ini update_parameters write_config bind lift ret].
  rewrite read_input_parameters_eq.
  destruct (locate w) as [out|e]; run_step; [|quiet_end].
  destruct (read_located (ini w) (PyStr.strip out)) as [msg|cfg0]; run_step;
    [quiet_end|].
  destruct (parse_options (ini w) "options.ini") as [options|e]; run_step;
    [|quiet_end].
  destruct (update_parameters_based_on_input E options _ _ _ _)
    as [[[[ws lw] lh] flh]|e]; run_step; [|quiet_end].
  destruct (store_parameters E cfg0 (param_dict a) default_params) as [cfg1|e];
    run_step; [|quiet_end].
  destruct (set_all E cfg1 (param_dict a)) as [cfg2|e]; run_step; [|quiet_end].
  destruct (Cfg.get cfg2 "mode") as [m|e]; run_step; [|quiet_end].
  destruct (getfloat E cfg2 "min_dist" (default_of "min_dist")) as [md|e]; run_step;
    [|quiet_end].
  destruct (Cfg.getboolean cfg2 "use_different_output" false) as [b|e]; run_step;
    [|quiet_end].
  destruct (Cfg.get cfg2 "output") as [od|e]; run_step; quiet_end.
Qed.


Lemma cli_translate_none file a r w cmd x :
  Dict.get (r_mode r) (modes E) = Some cmd ->
  py_float E (r_min_distance r) = Ok x ->
  execute cmd {| file := file; min_distance := x; verbose := Args.v a;
                 params := r_config r |} = Ok None ->
  cli_translate E file a r w
  = (Ok tt, logged [EvExecute (r_mode r)
                      {| file := file; min_distance := x; verbose := Args.v a;
                         params := r_config r |}] w).
Proof.
  intros Hm Hx Hex. unfold cli_translate. rewrite Hm, Hx.
  cbv beta iota zeta delta [bind lift ret]. rewrite emit_logged.
  run_step. now rewrite Hex.
Qed.

Lemma appends_ret {A} (x : A) : appends (ret x).
Proof. intros w. exists []. simpl. now rewrite app_nil_r. Qed.

Lemma appends_raise {A} e : appends (@raise A e).
Proof. intros w. exists []. simpl. now rewrite app_nil_r. Qed.

Lemma appends_lift {A} (x : result A) : appends (lift x).
Proof. intros w. exists []. simpl. now rewrite app_nil_r. Qed.

Lemma appends_emit e : appends (emit e).
Proof. intros w. now exists [e]. Qed.

Lemma appends_print text : appends (print text).
Proof. apply appends_emit. Qed.

Lemma appends_write_text path text : appends (write_text path text).
Proof. intros w. now exists [EvWriteText path text]. Qed.

Lemma appends_read_text path : appends (read_text path).
Proof.
  intros w. exists []. unfold read_text.
  destruct (txt w !! path); simpl; now rewrite app_nil_r.
Qed.

Lemma appends_bind {A B} (m : M A) (k : A -> M B) :
  appends m -> (forall x, appends (k x)) -> appends (bind m k).
Proof.
  intros Hm Hk w. unfold bind.
  destruct (Hm w) as [evs1 H1].
  destruct (m w) as [[x|e] w1]; simpl in *.
  - destruct (Hk x w1) as [evs2 H2]. exists (evs1 ++ evs2).
    now rewrite H2, H1, <- app_assoc.
  - now exists evs1.
Qed.

Lemma appends_parse_3d_printing_stats path : appends (parse_3d_printing_stats E path).
Proof.
  unfold parse_3d_printing_stats.
  apply appends_bind; [apply appends_read_text|intros; apply appends_lift].
Qed.

Lemma appends_remove_semicolon_lines i o ws lw lh flh st :
  appends (remove_semicolon_lines E i o ws lw lh flh st).
Proof.
  unfold remove_semicolon_lines.
  apply appends_bind; [apply appends_read_text|intros; apply appends_write_text].
Qed.

(** With a recognized mode and a numeric minimum distance the mode is
    called, whatever happens next. *)
Lemma cli_translate_executes file a r w cmd x :
  Dict.get (r_mode r) (modes E) = Some cmd ->
  py_float E (r_min_distance r) = Ok x ->
  exists res w2 evs,
    cli_translate E file a r w = (res, w2)
    /\ log w2 = log w ++ EvExecute (r_mode r)
                           {| file := file; min_distance := x; verbose := Args.v a;
                              params := r_config r |} :: evs.
Proof.
  intros Hm Hx. unfold cli_translate. rewrite Hm, Hx.
  match goal with
  | |- context [bind (emit ?e) ?k] =>
      assert (Hk : forall u, appends (k u)); [|
        unfold bind at 1; rewrite emit_logged;
        destruct (Hk tt (logged [e] w)) as [evs Hevs];
        exists (fst (k tt (logged [e] w))), (snd (k tt (logged [e] w))), evs;
        split; [apply surjective_pairing|];
        rewrite Hevs; cbn [log logged]; now rewrite <- app_assoc ]
  end.
  intros _. apply appends_bind; [apply appends_lift|].
  intros [lines|]; [|apply appends_ret].
  apply appends_bind; [apply appends_print|intros _].
  apply appends_bind; [apply appends_write_text|intros _].
  apply appends_bind; [apply appends_parse_3d_printing_stats|intros st].
  apply appends_remove_semicolon_lines.
Qed.

(** A translation that returns lines is written out, then rewritten with
    the header in front of the cleaned lines. *)
Lemma cli_translate_output file a r w cmd x lines text st :
  Dict.get (r_mode r) (modes E) = Some cmd ->
  py_float E (r_min_distance r) = Ok x ->
  execute cmd {| file := file; min_distance := x; verbose := Args.v a;
                 params := r_config r |} = Ok (Some lines) ->
  let filename := stem E (io_name file) in
  let out_dir := match r_out_dir r with
                 | None => absolute_parent E (io_name file)
                 | Some dir => dir
                 end in
  let out_path := joinpath E out_dir (filename +:+ ".pg") in
  let formatted := format_program E lines filename in
  <[out_path := formatted]> (txt w) !! io_name file = Some text ->
  scan_stats E (PyStr.readlines text)
    {| estimated_printing_time := VNone; total_filament_cost := VNone;
       total_filament_used := VNone |} = Ok st ->
  exists w2,
    cli_translate E file a r w = (Ok tt, w2)
    /\ txt w2 !! out_path
       = Some (PyStr.writelines
                 (header_lines E (r_welding_speed r) (r_line_width r)
                    (r_layer_height r) (r_first_layer_height r) st
                  ++ cleaned_lines (PyStr.readlines formatted))).
Proof.
  intros Hm Hx Hex filename out_dir out_path formatted Htext Hst.
  unfold cli_translate. rewrite Hm, Hx.
  cbv beta iota zeta delta [bind lift ret print emit]. run_step.
  rewrite Hex. run_step.
  fold filename. fold out_dir. fold out_path. fold formatted.
  unfold write_text at 1. run_step.
  unfold parse_3d_printing_stats, bind, lift, read_text at 1. run_step.
  rewrite Htext. run_step. rewrite Hst. run_step.
  unfold remove_semicolon_lines, bind, read_text, write_text. run_step.
  rewrite lookup_insert_eq. run_step.
  eexists. split; [reflexivity|]. cbn [txt]. now rewrite lookup_insert_eq.
Qed.

End RunFacts.

(** ** The claims about a run *)

Section RunClaims.

Variable E : env.

(** C4. When the selected mode's [execute] returns [None], the run ends
    there: the text files are what they were, and the log holds the
    [locate] call, the write of [input_parameters.txt] and the call of the
    mode, so no program file is written, not even in part. *)
Theorem failed_translation_writes_no_output file a w r w1 cmd x :
  cli_resolve E a w = (Ok (Some r), w1) ->
  Dict.get (r_mode r) (modes E) = Some cmd ->
  py_float E (r_min_distance r) = Ok x ->
  execute cmd {| file := file; min_distance := x; verbose := Args.v a;
                 params := r_config r |} = Ok None ->
  exists w2,
    cli E file a w = (Ok tt, w2)
    /\ txt w2 = txt w
    /\ log w2 = log w ++ [EvSubprocess ["locate"; "input_parameters.txt"];
                          EvWriteConfig "input_parameters.txt" (r_config r);
                          EvExecute (r_mode r)
                            {| file := file; min_distance := x; verbose := Args.v a;
                               params := r_config r |}]
    /\ forallb (fun e => negb (is_write_text e)) (skipn (length (log w)) (log w2)) = true.
Proof.
  intros Hres Hm Hx Hex.
  pose proof (cli_resolve_inv E _ _ _ _ Hres) as
    (out & cfg0 & cfg1 & options & _ & _ & _ & _ & _ & _ & _ & _ & _ & _ & ->).
  unfold cli, bind. rewrite Hres.
  rewrite (cli_translate_none E file a r _ cmd x Hm Hx Hex).
  eexists. split; [reflexivity|].
  cbn [txt log logged resolved_world].
  rewrite <- app_assoc. cbn [app].
  repeat split.
  rewrite skipn_app, skipn_all, Nat.sub_diag. reflexivity.
Qed.

Lemma resolved_config_get a w r w1 key value :
  cli_resolve E a w = (Ok (Some r), w1) ->
  In (key, value) (param_dict a) ->
  Dict.get (Cfg.lower key) (defaults (r_config r)) = Some (py_str E value).
Proof.
  intros Hres Hin.
  pose proof (cli_resolve_inv E _ _ _ _ Hres) as
    (out & cfg0 & cfg1 & options & _ & _ & _ & _ & _ & Hset & _).
  apply (set_all_get E _ _ _ _ _ Hset); [apply param_dict_NoDup|].
  exact Hin.
Qed.

Lemma resolved_min_distance a w r w1 x :
  cli_resolve E a w = (Ok (Some r), w1) ->
  Args.min_dist a = Some x ->
  PyStr.contains Cfg.percent (str_float E x) = false ->
  float_of_str E (str_float E x) = Some x ->
  r_min_distance r = VFloat x.
Proof.
  intros Hres Ha Hplain Hround.
  assert (Hget : Dict.get (Cfg.lower "min_dist") (defaults (r_config r))
                 = Some (py_str E (VFloat x))).
  { apply (resolved_config_get a w r w1 "min_dist" (VFloat x) Hres).
    unfold param_dict. rewrite Ha. simpl. tauto. }
  pose proof (cli_resolve_inv E _ _ _ _ Hres) as
    (out & cfg0 & cfg1 & options & _ & _ & _ & _ & _ & _ & _ & Hmd & _).
  unfold getfloat in Hmd.
  rewrite (get_plain _ _ _ Hget Hplain) in Hmd.
  simpl in Hmd. rewrite Hround in Hmd. congruence.
Qed.

(** C2, as amended. The minimum distance is not range-checked: when the
    command line gives a negative [min_dist] and the mode is recognized,
    the run goes on to translation and calls the mode with that negative
    value (given that Python reads back the text it prints for it). *)
Theorem negative_min_dist_reaches_translation file a w r w1 cmd x :
  cli_resolve E a w = (Ok (Some r), w1) ->
  Args.min_dist a = Some x ->
  PrimFloat.ltb x 0 = true ->
  PyStr.contains Cfg.percent (str_float E x) = false ->
  float_of_str E (str_float E x) = Some x ->
  Dict.get (r_mode r) (modes E) = Some cmd ->
  exists res w2 evs,
    cli E file a w = (res, w2)
    /\ log w2 = log w ++ [EvSubprocess ["locate"; "input_parameters.txt"];
                          EvWriteConfig "input_parameters.txt" (r_config r);
                          EvExecute (r_mode r)
                            {| file := file; min_distance := x; verbose := Args.v a;
                               params := r_config r |}] ++ evs.
Proof.
  intros Hres Ha _ Hplain Hround Hm.
  pose proof (resolved_min_distance a w r w1 x Hres Ha Hplain Hround) as Hmd.
  assert (Hx : py_float E (r_min_distance r) = Ok x) by now rewrite Hmd.
  pose proof (cli_resolve_inv E _ _ _ _ Hres) as
    (out & cfg0 & cfg1 & options & _ & _ & _ & _ & _ & _ & _ & _ & _ & _ & ->).
  destruct (cli_translate_executes E file a r (resolved_world w (r_config r)) cmd x Hm Hx)
    as (res & w2 & evs & Hrun & Hlog).
  exists res, w2, evs. split.
  - unfold cli, bind. now rewrite Hres.
  - rewrite Hlog. cbn [log resolved_world]. now rewrite <- app_assoc.
Qed.

(** C9, as amended. [read_input_parameters] never looks at its argument:
    it reads the path that [locate] printed.  When [locate] succeeds the
    call does not raise: it returns the configuration read there, or
    prints the error and returns [None] (a file that cannot be read, or
    one without a named section, ends that way), and [cli] then returns
    at once. *)
Theorem read_input_parameters_reads_located_file file_path other w :
  read_input_parameters file_path w = read_input_parameters other w
  /\ (forall out, locate w = Ok out ->
        match read_located (ini w) (PyStr.strip out) with
        | inr config =>
            read_input_parameters file_path w
            = (Ok (Some config),
               logged [EvSubprocess ["locate"; "input_parameters.txt"]] w)
        | inl e =>
            let w' :=
              logged [EvSubprocess ["locate"; "input_parameters.txt"];
                      EvPrint ("Error reading parameters from " +:+ PyStr.strip out
                               +:+ ": " +:+ e)] w in
            read_input_parameters file_path w = (Ok None, w')
            /\ forall file a, cli E file a w = (Ok tt, w')
        end)
  /\ (forall path,
        ini w !! path = None
        \/ (exists config, ini w !! path = Some (IniParsed config)
                            /\ sections config = []) ->
        exists e, read_located (ini w) path = inl e).
Proof.
  split; [reflexivity|]. split.
  - intros out Hloc.
    pose proof (read_input_parameters_eq file_path w) as Hr. rewrite Hloc in Hr.
    destruct (read_located (ini w) (PyStr.strip out)) as [e|config] eqn:Hread;
      [|exact Hr].
    split; [exact Hr|]. intros file a.
    unfold cli, cli_resolve, bind.
    rewrite read_input_parameters_eq, Hloc, Hread. reflexivity.
  - intros path [Hnone|(config & Hsome & Hsec)]; unfold read_located.
    + rewrite Hnone. simpl. eauto.
    + rewrite Hsome, Hsec. eauto.
Qed.

Lemma Dict_keys_get {V} k (d : Dict.t V) :
  In k (Dict.keys d) -> exists v, Dict.get k d = Some v.
Proof.
  induction d as [|[k0 v0] d IH]; simpl; [intros []|].
  destruct (String.eqb_spec k0 k) as [->|Hk]; [eauto|].
  intros [H|H]; [contradiction|auto].
Qed.

Lemma collect_options_other config key : forall keys acc options,
  collect_options config keys acc = Ok options ->
  ~ In key keys ->
  options !! key = acc !! key.
Proof.
  induction keys as [|k keys IH]; simpl; intros acc options.
  - now intros [= <-].
  - intros H Hnot.
    destruct (Cfg.get config k) as [[value|]|e]; [| |discriminate];
      rewrite (IH _ _ H) by tauto; apply lookup_insert_ne; tauto.
Qed.

Lemma parse_options_undefined w options key :
  parse_options (ini w) "options.ini" = Ok options ->
  options_ini_defines w key = false ->
  options !! key = None.
Proof.
  unfold parse_options, options_ini_defines.
  destruct (ini w !! "options.ini") as [[config|msg]|]; [| discriminate |].
  - intros H Hdef. rewrite (collect_options_other _ key _ _ _ H); [reflexivity|].
    intros Hin. apply Dict_keys_get in Hin as [v Hv].
    unfold Dict.mem in Hdef. now rewrite Hv in Hdef.
  - simpl. now intros [= <-] _.
Qed.

Lemma override_absent options key current :
  options !! key = None -> override E options key current = Ok current.
Proof. intros H. unfold override. now rewrite H. Qed.

Lemma update_parameters_based_on_input_inv options ws lw lh flh ws' lw' lh' flh' :
  update_parameters_based_on_input E options ws lw lh flh = Ok (ws', lw', lh', flh') ->
  ws' = ws
  /\ override E options "line_width" lw = Ok lw'
  /\ override E options "layer_height" lh = Ok lh'
  /\ override E options "first_layer_height" flh = Ok flh'.
Proof.
  unfold update_parameters_based_on_input.
  destruct (override E options "layer_height" lh); [|discriminate].
  destruct (override E options "first_layer_height" flh); [|discriminate].
  destruct (override E options "line_width" lw); [|discriminate].
  intros [= <- <- <- <-]. auto.
Qed.

Lemma supplied_in_param_dict a key value :
  supplied a key = Some value ->
  In (key, value) (param_dict a) /\ Cfg.lower key = key.
Proof.
  unfold supplied, param_dict. destruct a; cbn [Args.mode Args.min_dist Args.vase_mode
    Args.welding_speed Args.inverted Args.output Args.line_width Args.layer_height
    Args.first_layer_height].
  intros H.
  repeat match type of H with
         | context [String.eqb key ?k] =>
             destruct (String.eqb_spec key k) as [->|?]; [cbn in H|]
         end; try discriminate;
    repeat match type of H with
           | context [match ?x with _ => _ end] => destruct x; cbn in H
           | context [option_map _ ?x] => destruct x; cbn in H
           end; try discriminate;
    injection H as <-; (split; [simpl; tauto|reflexivity]).
Qed.

Lemma omitted_in_param_dict a key :
  supplied a key = None ->
  In key (Dict.keys default_params) ->
  In (key, default_of key) (param_dict a) /\ Cfg.lower key = key.
Proof.
  unfold supplied, param_dict. destruct a; cbn [Args.mode Args.min_dist Args.vase_mode
    Args.welding_speed Args.inverted Args.output Args.line_width Args.layer_height
    Args.first_layer_height].
  intros H Hin. simpl in Hin.
  repeat (destruct Hin as [<-|Hin];
          [cbn in H;
           repeat match type of H with
                  | context [match ?x with _ => _ end] => destruct x; cbn in H
                  | context [option_map _ ?x] => destruct x; cbn in H
                  end; try discriminate;
           (split; [simpl; tauto|reflexivity])|]).
  contradiction.
Qed.

Lemma modes_fold_get mode cmd (l : list (CLICommand (program E))) : forall acc,
  Dict.get mode (fold_left (fun acc m => Dict.set (message m) m acc) l acc) = Some cmd ->
  (In cmd l /\ message cmd = mode) \/ Dict.get mode acc = Some cmd.
Proof.
  induction l as [|m l IH]; simpl; intros acc H; [now right|].
  destruct (IH _ H) as [[Hin Hmsg]|Hget]; [left; auto|].
  destruct (String.eqb_spec (message m) mode) as [Heq|Hne].
  - rewrite <- Heq, Dict_get_set_eq in Hget. injection Hget as <-. left. auto.
  - rewrite Dict_get_set_ne in Hget by exact Hne. now right.
Qed.

(** A key of [modes] selects one of the three modes, the one with that
    menu text. *)
Lemma modes_lookup mode cmd :
  Dict.get mode (modes E) = Some cmd ->
  (cmd = FDM E \/ cmd = Metal E \/ cmd = LaserCut E) /\ message cmd = mode.
Proof.
  intros H. apply modes_fold_get in H as [[Hin Hmsg]|H]; [|discriminate].
  split; [|exact Hmsg]. simpl in Hin. intuition auto.
Qed.

Lemma Dict_In_get {V} k (v : V) (d : Dict.t V) :
  NoDup (Dict.keys d) -> In (k, v) d -> Dict.get k d = Some v.
Proof.
  induction d as [|[k0 v0] d IH]; simpl; [intros _ []|].
  intros Hnd Hin. apply NoDup_cons in Hnd as [Hnot Hnd].
  destruct Hin as [[= -> ->]|Hin].
  - now rewrite String.eqb_refl.
  - destruct (String.eqb_spec k0 k) as [->|Hne]; [|auto].
    exfalso. apply Hnot. apply list_elem_of_In.
    change (In (fst (k, v)) (map fst d)). now apply in_map.
Qed.

Lemma item_param_dict a key value :
  In (key, value) (param_dict a) -> item (param_dict a) key = value.
Proof.
  intros Hin. unfold item. rewrite (Dict_In_get key value); [reflexivity| |exact Hin].
  apply (bool_decide_unpack _). vm_compute. exact I.
Qed.

(** What resolution makes of one entry of [param_dict]: the text stored in
    the configuration, the header values, the mode and the minimum
    distance. *)
Lemma resolved_values a w r w1 key value :
  cli_resolve E a w = (Ok (Some r), w1) ->
  In (key, value) (param_dict a) ->
  Dict.get (Cfg.lower key) (defaults (r_config r)) = Some (py_str E value)
  /\ (key = "welding_speed" -> r_welding_speed r = value)
  /\ (key = "line_width" ->
      options_ini_defines w "line_width" = false -> r_line_width r = value)
  /\ (key = "layer_height" ->
      options_ini_defines w "layer_height" = false -> r_layer_height r = value)
  /\ (key = "first_layer_height" ->
      options_ini_defines w "first_layer_height" = false ->
      r_first_layer_height r = value)
  /\ (key = "mode" ->
      PyStr.contains Cfg.percent (py_str E value) = false ->
      r_mode r = py_str E value)
  /\ (key = "min_dist" ->
      PyStr.contains Cfg.percent (py_str E value) = false ->
      forall x, py_float E (VStr (py_str E value)) = Ok x ->
                r_min_distance r = VFloat x).
Proof.
  intros Hres Hin.
  pose proof (resolved_config_get a w r w1 key value Hres Hin) as Hget.
  pose proof (item_param_dict a key value Hin) as Hitem.
  pose proof (cli_resolve_inv E _ _ _ _ Hres) as
    (out & cfg0 & cfg1 & options & _ & _ & Hopt & Hup & _ & _ & (m & Hm & Hmode)
     & Hmd & _ & _ & _).
  apply update_parameters_based_on_input_inv in Hup as (Hws & Hlw & Hlh & Hflh).
  split; [exact Hget|].
  split; [intros ->; now rewrite Hws|].
  split; [intros -> Hdef;
          rewrite override_absent in Hlw by
            exact (parse_options_undefined _ _ _ Hopt Hdef); congruence|].
  split; [intros -> Hdef;
          rewrite override_absent in Hlh by
            exact (parse_options_undefined _ _ _ Hopt Hdef); congruence|].
  split; [intros -> Hdef;
          rewrite override_absent in Hflh by
            exact (parse_options_undefined _ _ _ Hopt Hdef); congruence|].
  split.
  - intros -> Hplain. rewrite (get_plain _ _ _ Hget Hplain) in Hm.
    injection Hm as <-. exact Hmode.
  - intros -> Hplain x Hx. unfold getfloat in Hmd.
    rewrite (get_plain _ _ _ Hget Hplain), Hx in Hmd. congruence.
Qed.

End RunClaims.

Lemma failed_translation_writes_no_output_witness :
  exists w2,
    cli Sample.E Sample.empty_source Args.omitted Sample.w0 = (Ok tt, w2)
    /\ txt w2 = txt Sample.w0.
Proof.
  destruct (failed_translation_writes_no_output Sample.E Sample.empty_source
              Args.omitted Sample.w0
              (Sample.resolution Args.omitted Sample.w0)
              (snd (cli_resolve Sample.E Args.omitted Sample.w0))
              (Metal Sample.E) 2%float)
    as (w2 & Hrun & Htxt & _); try (vm_compute; reflexivity).
  exists w2. split; assumption.
Defined.

(** ** The simplifier *)

Section Simplifier.

Import PathSimplifier.

Lemma distance_nonneg p q : (0 <= distance p q)%R.
Proof. unfold distance. apply sqrt_pos. Qed.

Lemma simplify_from_pass_through d (pts : list Waypoint) : forall kept prev,
  (d <= 0)%R -> simplify_from d kept prev pts = pts.
Proof.
  induction pts as [|p rest IH]; intros kept prev Hd; [reflexivity|].
  simpl. destruct rest as [|next rest']; [reflexivity|].
  destruct (transition prev p || transition p next).
  - now rewrite IH.
  - destruct (Rlt_dec (distance p kept) d) as [Hlt|_].
    + pose proof (distance_nonneg p kept). lra.
    + now rewrite IH.
Qed.

(** C8. With a threshold [d <= 0], and so with [min_distance = 0], the
    simplifier passes every waypoint through: the output is the input, and
    the two have the same number of waypoints. *)
Theorem simplifier_pass_through (d : R) (pts : list Waypoint) :
  (d <= 0)%R ->
  simplify d pts = pts /\ length (simplify d pts) = length pts.
Proof.
  intros Hd.
  assert (H : simplify d pts = pts).
  { destruct pts as [|p rest]; [reflexivity|].
    simpl. now rewrite simplify_from_pass_through. }
  split; [exact H|now rewrite H].
Qed.

End Simplifier.

Lemma simplifier_pass_through_witness :
  (0 <= 0)%R /\
  let p (x y : R) (on : bool) :=
    {| PathSimplifier.wx := x; PathSimplifier.wy := y; PathSimplifier.wz := 0%R;
       PathSimplifier.tool_active := on |} in
  length (PathSimplifier.simplify 0%R [p 0%R 0%R false; p 10%R 0%R true;
                                       p 10%R 1%R true; p 10%R 2%R true])
  = 4%nat.
Proof.
  split; [lra|]. intros p.
  exact (proj2 (simplifier_pass_through 0%R
                  [p 0%R 0%R false; p 10%R 0%R true; p 10%R 1%R true; p 10%R 2%R true]
                  (Rle_refl 0%R))).
Defined.

(** ** The claims on the sample machines *)


Lemma negative_min_dist_reaches_translation_witness :
  let a := Sample.with_min_dist (-1) in
  let r := Sample.resolution a Sample.w0 in
  Args.min_dist a = Some (-1)%float
  /\ PrimFloat.ltb (-1) 0 = true
  /\ exists res w2 evs,
      cli Sample.E Sample.source a Sample.w0 = (res, w2)
      /\ log w2 = log Sample.w0
                  ++ [EvSubprocess ["locate"; "input_parameters.txt"];
                      EvWriteConfig "input_parameters.txt" (r_config r);
                      EvExecute (r_mode r)
                        {| file := Sample.source; min_distance := (-1)%float;
                           verbose := Args.v a; params := r_config r |}] ++ evs.
Proof.
  intros a r. split; [reflexivity|]. split; [reflexivity|].
  apply (negative_min_dist_reaches_translation Sample.E Sample.source a Sample.w0 r
           (snd (cli_resolve Sample.E a Sample.w0)) (Metal Sample.E) (-1)%float);
    vm_compute; reflexivity.
Defined.

(** C2 fails as stated: with [--min_dist -1] the run is not stopped; the
    mode is called with -1.0 and the program file is written. *)
Lemma negative_min_dist_is_translated :
  let a := Sample.with_min_dist (-1) in
  let w2 := snd (cli Sample.E Sample.source a Sample.w0) in
  Args.min_dist a = Some (-1)%float
  /\ PrimFloat.ltb (-1) 0 = true
  /\ fst (cli Sample.E Sample.source a Sample.w0) = Ok tt
  /\ option_map min_distance (executed (log w2)) = Some (-1)%float
  /\ existsb is_write_text (log w2) = true
  /\ txt Sample.w0 !! "./part.pg" = None
  /\ txt w2 !! "./part.pg" <> None.
Proof. vm_compute. repeat split. discriminate. Qed.

(** C3 fails as stated: two machines that differ only in the file that
    [locate] finds hand different configurations to the mode, for the same
    command line; and the run writes [input_parameters.txt], which the
    working directory did not hold before. *)
Lemma configuration_depends_on_located_file :
  let run w := snd (cli Sample.E Sample.source Args.omitted w) in
  let travel_speed w :=
    option_map (fun o => Dict.get "travel_speed" (defaults (params o)))
      (executed (log (run w))) in
  locate Sample.w0 = locate Sample.w_other
  /\ travel_speed Sample.w0 = Some (Some "100")
  /\ travel_speed Sample.w_other = Some (Some "250")
  /\ ini Sample.w0 !! "input_parameters.txt" = None
  /\ ini (run Sample.w0) !! "input_parameters.txt" <> None.
Proof. vm_compute. repeat split. discriminate. Qed.


Lemma read_input_parameters_reads_located_file_witness :
  locate Sample.w_no_section
  = Ok ("/etc/duplex/input_parameters.txt" +:+ PyStr.newline)
  /\ fst (read_input_parameters "input_parameters.txt" Sample.w_no_section) = Ok None
  /\ fst (cli Sample.E Sample.source Args.omitted Sample.w_no_section) = Ok tt.
Proof.
  destruct (read_input_parameters_reads_located_file Sample.E "input_parameters.txt"
              "elsewhere.txt" Sample.w_no_section) as (_ & Hloc & _).
  specialize (Hloc _ eq_refl).
  change (read_located (ini Sample.w_no_section)
            (PyStr.strip ("/etc/duplex/input_parameters.txt" +:+ PyStr.newline)))
    with (@inl string ConfigParser missing_arguments_text) in Hloc.
  destruct Hloc as [Hread Hcli].
  split; [reflexivity|]. split; [now rewrite Hread|].
  now rewrite (Hcli Sample.source Args.omitted).
Defined.

(** C9 fails as stated: when [locate] fails, the call raises instead of
    returning [None], and so does the run. *)
Lemma locate_failure_raises :
  locate Sample.w_no_locate = Raise CalledProcessError
  /\ fst (read_input_parameters "input_parameters.txt" Sample.w_no_locate)
     = Raise CalledProcessError
  /\ fst (read_input_parameters "input_parameters.txt" Sample.w_no_locate) <> Ok None
  /\ fst (cli Sample.E Sample.source Args.omitted Sample.w_no_locate)
     = Raise CalledProcessError.
Proof. vm_compute. repeat split. discriminate. Qed.

(** * Further properties of the driver *)

(** ** The text pass, beyond the claims *)

Section TextPassMore.

Import PyStr.

Lemma string_app_nil_r (s : string) : s +:+ "" = s.
Proof.
  induction s as [|a s IH]; [reflexivity|].
  change (String a (s +:+ "") = String a s). now rewrite IH.
Qed.

Lemma string_app_assoc (s t u : string) : (s +:+ t) +:+ u = s +:+ (t +:+ u).
Proof.
  induction s as [|a s IH]; [reflexivity|].
  change (String a ((s +:+ t) +:+ u) = String a (s +:+ (t +:+ u))). now rewrite IH.
Qed.

Lemma writelines_app l1 l2 : writelines (l1 ++ l2) = writelines l1 +:+ writelines l2.
Proof.
  induction l1 as [|x l1 IH]; simpl; [reflexivity|].
  now rewrite IH, string_app_assoc.
Qed.

Lemma cleaned_lines_plain lines :
  Forall (fun l => contains semicolon l = false) lines ->
  cleaned_lines lines = lines.
Proof.
  induction 1 as [|l ls Hl _ IH]; [reflexivity|].
  rewrite cleaned_lines_cons, clean_line_plain, IH by exact Hl. reflexivity.
Qed.

Lemma clean_line_length line : length (clean_line line) <= 1.
Proof.
  unfold clean_line.
  destruct (contains semicolon (strip line)); [|simpl; lia].
  destruct (layer_height_pattern (strip line) || first_layer_height_pattern (strip line));
    [simpl; lia|].
  destruct (strip (split_first semicolon (strip line))); simpl; lia.
Qed.

(** X1. Cleaning is idempotent and never adds lines: the cleaned lines of
    cleaned lines are those lines again, and there are at most as many of
    them as lines read. *)
Theorem cleaned_lines_idempotent lines :
  cleaned_lines (cleaned_lines lines) = cleaned_lines lines
  /\ length (cleaned_lines lines) <= length lines.
Proof.
  split.
  - apply cleaned_lines_plain, cleaned_lines_no_semicolon.
  - induction lines as [|l ls IH]; [simpl; lia|].
    rewrite cleaned_lines_cons, length_app. simpl.
    pose proof (clean_line_length l). lia.
Qed.

Lemma writelines_lines_from s : forall cur,
  writelines (lines_from cur s) = cur +:+ s.
Proof.
  induction s as [|c s IH]; intros cur; simpl.
  - destruct cur; reflexivity.
  - destruct (Ascii.eqb_spec c (ascii_of_nat 10)) as [->|Hc].
    + simpl. rewrite IH. simpl. now rewrite string_app_assoc.
    + rewrite IH. now rewrite string_app_assoc.
Qed.

Lemma lines_from_no_semicolon s : forall cur,
  contains semicolon cur = false ->
  contains semicolon s = false ->
  Forall (fun l => contains semicolon l = false) (lines_from cur s).
Proof.
  induction s as [|c s IH]; intros cur Hcur Hs; simpl.
  - destruct cur; constructor; [exact Hcur|constructor].
  - simpl in Hs. destruct (Ascii.eqb c semicolon) eqn:Hsc; [discriminate|].
    destruct (Ascii.eqb c (ascii_of_nat 10)).
    + constructor; [|now apply IH].
      rewrite contains_app, Hcur. reflexivity.
    + apply IH; [|exact Hs].
      rewrite contains_app, Hcur. simpl. now rewrite Hsc.
Qed.

Lemma universal_newlines_no_semicolon s :
  contains semicolon s = false ->
  contains semicolon (universal_newlines s) = false.
Proof.
  induction s as [|c s IH]; [reflexivity|].
  intros Hs. simpl in Hs.
  destruct (Ascii.eqb c semicolon) eqn:Hsc; [discriminate|].
  specialize (IH Hs). simpl.
  destruct (Ascii.eqb c (ascii_of_nat 13)) eqn:Hcr.
  - destruct s as [|c' s']; [reflexivity|].
    destruct (Ascii.eqb c' (ascii_of_nat 10)); [exact IH|].
    simpl. exact IH.
  - simpl. now rewrite Hsc.
Qed.

(** X2. On a text without any semicolon the pass only puts the header in
    front: what it writes is the header followed by the text itself, with
    its line ends normalised to LF. *)
Theorem remove_semicolon_lines_plain_text
  (E : env) (input_file output_file : string)
  (welding_speed line_width layer_height first_layer_height : pyval)
  (st : stats) (text : string) (w : world) :
  txt w !! input_file = Some text ->
  contains semicolon text = false ->
  let written :=
    writelines (header_lines E welding_speed line_width layer_height
                  first_layer_height st)
    +:+ universal_newlines text in
  remove_semicolon_lines E input_file output_file welding_speed line_width
    layer_height first_layer_height st w
  = (Ok tt, {| locate := locate w; ini := ini w;
               txt := <[output_file := written]> (txt w);
               log := log w ++ [EvWriteText output_file written] |}).
Proof.
  intros Hin Hplain written. subst written.
  unfold remove_semicolon_lines, bind, read_text, write_text. rewrite Hin.
  rewrite cleaned_lines_plain.
  - rewrite writelines_app. unfold readlines.
    now rewrite writelines_lines_from.
  - apply lines_from_no_semicolon; [reflexivity|].
    now apply universal_newlines_no_semicolon.
Qed.

End TextPassMore.

Lemma remove_semicolon_lines_plain_text_witness :
  txt Cases.w_plain !! "plain.pg" = Some Cases.plain_text
  /\ PyStr.contains PyStr.semicolon Cases.plain_text = false
  /\ txt (snd (remove_semicolon_lines Sample.E "plain.pg" "plain.pg"
                 (VFloat 30) (VFloat 2.4) (VInt 1) (VFloat 1.2) no_stats
                 Cases.w_plain)) !! "plain.pg"
     = Some (PyStr.writelines
               (header_lines Sample.E (VFloat 30) (VFloat 2.4) (VInt 1) (VFloat 1.2)
                  no_stats)
             +:+ "G1 X1" +:+ PyStr.newline +:+ "G1 X2").
Proof.
  split; [reflexivity|]. split; [reflexivity|].
  rewrite (remove_semicolon_lines_plain_text Sample.E "plain.pg" "plain.pg"
             (VFloat 30) (VFloat 2.4) (VInt 1) (VFloat 1.2) no_stats
             Cases.plain_text Cases.w_plain eq_refl eq_refl).
  reflexivity.
Defined.

(** ** The statistics scraper *)

Section Statistics.

Import PyStr.

Variable E : env.

Lemma search_no_semicolon m line :
  contains semicolon line = false -> search_after_semicolon m line = None.
Proof.
  induction line as [|c line IH]; simpl; [reflexivity|].
  destruct (Ascii.eqb c semicolon); [discriminate|exact IH].
Qed.

Lemma scan_stats_plain lines : forall st,
  Forall (fun l => contains semicolon l = false) lines ->
  scan_stats E lines st = Ok st.
Proof.
  induction lines as [|line lines IH]; intros st Hall; [reflexivity|].
  inversion Hall as [|? ? Hline Hrest]; subst.
  simpl. unfold time_pattern, cost_pattern, filament_used_pattern.
  rewrite !search_no_semicolon by exact Hline.
  destruct st. now apply IH.
Qed.

Lemma scan_stats_app l1 : forall l2 st,
  scan_stats E (l1 ++ l2) st =
    match scan_stats E l1 st with
    | Ok st' => scan_stats E l2 st'
    | Raise e => Raise e
    end.
Proof.
  induction l1 as [|line l1 IH]; intros l2 st; [reflexivity|].
  simpl.
  destruct (match cost_pattern line with Some _ => _ | None => _ end) as [st2|e];
    [|reflexivity].
  destruct (match filament_used_pattern line with Some _ => _ | None => _ end)
    as [st3|e]; [|reflexivity].
  apply IH.
Qed.

(** X3. [parse_3d_printing_stats] only reads: it never changes the world.
    A file that is missing raises [FileNotFoundError], and a file without
    any semicolon gives the three statistics as [None]. *)
Theorem parse_3d_printing_stats_reads_only file_path w :
  snd (parse_3d_printing_stats E file_path w) = w
  /\ (txt w !! file_path = None ->
      fst (parse_3d_printing_stats E file_path w) = Raise FileNotFoundError)
  /\ (forall text,
        txt w !! file_path = Some text ->
        contains semicolon text = false ->
        fst (parse_3d_printing_stats E file_path w) = Ok no_stats).
Proof.
  unfold parse_3d_printing_stats, bind, read_text, lift.
  destruct (txt w !! file_path) as [text|] eqn:Htext.
  - split; [reflexivity|]. split; [discriminate|].
    intros text' [= <-] Hplain. simpl. unfold readlines.
    apply scan_stats_plain, lines_from_no_semicolon; [reflexivity|].
    now apply universal_newlines_no_semicolon.
  - split; [reflexivity|]. split; [reflexivity|]. discriminate.
Qed.

(** X4. The scan of a file is the scan of its first lines followed by the
    scan of the rest, so a later line replaces what an earlier one set: a
    last line that matches only the time pattern leaves the printing time
    at its trimmed capture and the two other statistics as they were. *)
Theorem scan_stats_last_line_wins lines line g st0 st :
  scan_stats E lines st0 = Ok st ->
  time_pattern line = Some g ->
  cost_pattern line = None ->
  filament_used_pattern line = None ->
  scan_stats E (lines ++ [line]) st0
  = Ok {| estimated_printing_time := VStr (strip g);
          total_filament_cost := total_filament_cost st;
          total_filament_used := total_filament_used st |}.
Proof.
  intros Hscan Htime Hcost Hused.
  rewrite scan_stats_app, Hscan. simpl.
  now rewrite Htime, Hcost, Hused.
Qed.

Lemma digits_split s : s = digits s +:+ after_digits s.
Proof.
  induction s as [|c s IH]; [reflexivity|]. simpl.
  destruct (is_digit c); [|reflexivity].
  change (String c s = String c (digits s +:+ after_digits s)). now rewrite <- IH.
Qed.

Lemma digits_all s : all_chars is_digit (digits s) = true.
Proof.
  induction s as [|c s IH]; [reflexivity|]. simpl.
  destruct (is_digit c) eqn:Hc; [|reflexivity]. simpl. now rewrite Hc.
Qed.

Lemma all_chars_app P s t :
  all_chars P (s +:+ t) = all_chars P s && all_chars P t.
Proof.
  induction s as [|c s IH]; [reflexivity|].
  change (P c && all_chars P (s +:+ t) = P c && all_chars P s && all_chars P t).
  rewrite IH. now rewrite Bool.andb_assoc.
Qed.

Lemma all_chars_weaken (P Q : ascii -> bool) s :
  (forall c, P c = true -> Q c = true) ->
  all_chars P s = true -> all_chars Q s = true.
Proof.
  intros HPQ. induction s as [|c s IH]; [reflexivity|]. simpl.
  intros H. apply andb_prop in H as [Hc Hs]. now rewrite (HPQ c Hc), IH.
Qed.

(** X5. What the two numeric patterns capture is a plain decimal numeral
    at the start of the text after the equals sign: it begins with a
    digit, holds only digits and dots, and the text continues after it. *)
Theorem number_is_leading_numeral s g :
  number s = Some g ->
  (exists rest, s = g +:+ rest)
  /\ (exists c g', g = String c g' /\ is_digit c = true)
  /\ all_chars (fun c => is_digit c || Ascii.eqb c "."%char) g = true.
Proof.
  unfold number. intros H.
  assert (Hd : all_chars (fun c => is_digit c || Ascii.eqb c "."%char) (digits s) = true).
  { apply (all_chars_weaken is_digit); [|apply digits_all].
    intros c ->. reflexivity. }
  pose proof (digits_all s) as Hall.
  pose proof (digits_split s) as Hsplit.
  destruct (digits s) as [|c whole] eqn:Hw; [discriminate|].
  assert (Hc : is_digit c = true) by (simpl in Hall; now apply andb_prop in Hall).
  destruct (after_digits s) as [|c' s'] eqn:Ha.
  - injection H as <-. split; [exists ""; exact Hsplit|].
    split; [exists c, whole; auto|exact Hd].
  - destruct (Ascii.eqb_spec c' "."%char) as [->|Hne].
    + injection H as <-. split.
      * exists (after_digits s'). rewrite Hsplit at 1.
        rewrite (digits_split s') at 1.
        now rewrite !string_app_assoc.
      * split; [exists c, (whole +:+ "." +:+ digits s'); auto|].
        change (String c whole +:+ "." +:+ digits s')
          with (String c whole +:+ ("." +:+ digits s')).
        rewrite all_chars_app, Hd. simpl.
        apply (all_chars_weaken is_digit); [|apply digits_all].
        intros a ->. reflexivity.
    + injection H as <-. split; [exists (String c' s'); exact Hsplit|].
      split; [exists c, whole; auto|exact Hd].
Qed.

End Statistics.

Lemma scan_stats_last_line_wins_witness :
  scan_stats Sample.E (Cases.sliced
                       ++ ["; estimated printing time (normal mode) = 3h" +:+ PyStr.newline])
    no_stats
  = Ok {| estimated_printing_time := VStr "3h";
          total_filament_cost := VFloat 2;
          total_filament_used := VNone |}.
Proof.
  exact (scan_stats_last_line_wins Sample.E Cases.sliced
           ("; estimated printing time (normal mode) = 3h" +:+ PyStr.newline)
           ("3h") no_stats
           {| estimated_printing_time := VStr "1h 2m";
              total_filament_cost := VFloat 2;
              total_filament_used := VNone |}
           eq_refl eq_refl eq_refl eq_refl).
Defined.

Lemma number_is_leading_numeral_witness :
  number "12.50 EUR" = Some "12.50"
  /\ exists rest, "12.50 EUR" = "12.50" +:+ rest.
Proof.
  split; [reflexivity|].
  exact (proj1 (number_is_leading_numeral "12.50 EUR" "12.50" eq_refl)).
Defined.

Lemma parse_3d_printing_stats_reads_only_witness :
  txt Cases.w_plain !! "plain.pg" = Some Cases.plain_text
  /\ fst (parse_3d_printing_stats Sample.E "plain.pg" Cases.w_plain) = Ok no_stats
  /\ fst (parse_3d_printing_stats Sample.E "absent.gcode" Cases.w_plain)
     = Raise FileNotFoundError.
Proof.
  destruct (parse_3d_printing_stats_reads_only Sample.E "plain.pg" Cases.w_plain)
    as (_ & _ & Hplain).
  destruct (parse_3d_printing_stats_reads_only Sample.E "absent.gcode" Cases.w_plain)
    as (_ & Hmissing & _).
  split; [reflexivity|].
  split; [exact (Hplain Cases.plain_text eq_refl eq_refl)|exact (Hmissing eq_refl)].
Defined.

(** ** The table of modes and the options file *)

Section TablesMore.

Variable E : env.

(** X6. In the table of modes the later of two modes with the same menu
    text wins: the text of [LaserCut] always selects [LaserCut], that of
    [Metal] selects [Metal] unless [LaserCut] has the same text, and that
    of [FDM] selects [FDM] unless one of the two others has it.  With
    three different texts the keys are those texts, in that order. *)
Theorem modes_select_by_message :
  Dict.get (message (LaserCut E)) (modes E) = Some (LaserCut E)
  /\ (message (Metal E) <> message (LaserCut E) ->
      Dict.get (message (Metal E)) (modes E) = Some (Metal E))
  /\ (message (FDM E) <> message (Metal E) ->
      message (FDM E) <> message (LaserCut E) ->
      Dict.get (message (FDM E)) (modes E) = Some (FDM E)
      /\ (message (Metal E) <> message (LaserCut E) ->
          Dict.keys (modes E)
          = [message (FDM E); message (Metal E); message (LaserCut E)])).
Proof.
  unfold modes. cbn [fold_left].
  split; [apply Dict_get_set_eq|].
  split.
  - intros Hml. rewrite Dict_get_set_ne by congruence. apply Dict_get_set_eq.
  - intros Hfm Hfl. split.
    + rewrite !Dict_get_set_ne by congruence. apply Dict_get_set_eq.
    + intros Hml. simpl.
      destruct (String.eqb_spec (message (FDM E)) (message (Metal E)));
        [contradiction|].
      simpl.
      destruct (String.eqb_spec (message (FDM E)) (message (LaserCut E)));
        [contradiction|].
      destruct (String.eqb_spec (message (Metal E)) (message (LaserCut E)));
        [contradiction|].
      reflexivity.
Qed.

Lemma Dict_get_keys {V} k (v : V) d : Dict.get k d = Some v -> In k (Dict.keys d).
Proof.
  induction d as [|[k0 v0] d IH]; simpl; [discriminate|].
  destruct (String.eqb_spec k0 k) as [->|Hk]; auto.
Qed.

Lemma collect_options_lookup config key v : forall keys acc options,
  collect_options config keys acc = Ok options ->
  Cfg.get config key = Ok (Some v) ->
  In key keys \/ acc !! key = Some (VStr v) ->
  options !! key = Some (VStr v).
Proof.
  induction keys as [|k keys IH]; simpl; intros acc options.
  - intros [= <-] _ [[]|H]. exact H.
  - intros H Hget Hin.
    destruct (String.eqb_spec k key) as [->|Hne].
    + rewrite Hget in H. apply (IH _ _ H Hget). right. apply lookup_insert_eq.
    + destruct (Cfg.get config k) as [[value|]|e]; [| |discriminate];
        apply (IH _ _ H Hget);
        (destruct Hin as [[Heq|Hin]|Hacc];
         [contradiction|now left|right; now rewrite lookup_insert_ne]).
Qed.

(** X7. [parse_options_ini] only reads.  Without the file it gives no
    option at all, and a file configparser cannot parse raises.  From a
    file it can parse, each option of the [DEFAULT] section whose value
    has no percent sign comes back as that text, and a name the section
    does not have is not among the options. *)
Theorem parse_options_ini_contract file_path w :
  snd (parse_options_ini file_path w) = w
  /\ (ini w !! file_path = None -> fst (parse_options_ini file_path w) = Ok ∅)
  /\ (forall msg, ini w !! file_path = Some (IniMalformed msg) ->
                  fst (parse_options_ini file_path w) = Raise ParsingError)
  /\ (forall config options key,
        ini w !! file_path = Some (IniParsed config) ->
        fst (parse_options_ini file_path w) = Ok options ->
        (forall v, Dict.get key (defaults config) = Some v ->
                   Cfg.lower key = key ->
                   PyStr.contains Cfg.percent v = false ->
                   options !! key = Some (VStr v))
        /\ (Dict.get key (defaults config) = None -> options !! key = None)).
Proof.
  unfold parse_options_ini, parse_options. cbn [fst snd].
  split; [reflexivity|].
  split; [now intros ->|].
  split; [now intros msg ->|].
  intros config options key -> Hopt. split.
  - intros v Hget Hlow Hplain.
    apply (collect_options_lookup _ _ _ _ _ _ Hopt).
    + apply get_plain; [now rewrite Hlow|exact Hplain].
    + left. exact (Dict_get_keys _ _ _ Hget).
  - intros Hnone.
    rewrite (collect_options_other _ key _ _ _ Hopt); [reflexivity|].
    intros Hin. apply Dict_keys_get in Hin as [v Hv]. congruence.
Qed.

Lemma set_all_sections items : forall cfg cfg',
  set_all E cfg items = Ok cfg' -> sections cfg' = sections cfg.
Proof.
  induction items as [|[k v] items IH]; simpl; intros cfg cfg'.
  - now intros [= <-].
  - destruct (Cfg.set_default cfg k (py_str E v)) as [c|e] eqn:Hs; [|discriminate].
    intros H. apply IH in H. apply set_default_inv in Hs as [_ Hs]. congruence.
Qed.

(** X8. When [update_parameters] returns, the configuration it returns
    holds every parameter as text under its lower-cased name, with the
    other options and the sections untouched, and exactly that
    configuration has been written to [input_parameters.txt]. *)
Theorem update_parameters_contract config params w config' w' :
  update_parameters E config params w = (Ok config', w') ->
  sections config' = sections config
  /\ (forall key,
        key ∉ map (fun kv => Cfg.lower (fst kv)) params ->
        Dict.get key (defaults config') = Dict.get key (defaults config))
  /\ (NoDup (map (fun kv => Cfg.lower (fst kv)) params) ->
      forall key value,
        In (key, value) params ->
        Dict.get (Cfg.lower key) (defaults config') = Some (py_str E value))
  /\ w' = {| locate := locate w;
             ini := <["input_parameters.txt" := IniParsed config']> (ini w);
             txt := txt w;
             log := log w ++ [EvWriteConfig "input_parameters.txt" config'] |}.
Proof.
  unfold update_parameters, bind, lift, write_config, ret.
  destruct (set_all E config params) as [cfg|e] eqn:Hset; [|discriminate].
  intros [= <- <-].
  split; [exact (set_all_sections _ _ _ Hset)|].
  split; [intros key Hkey; exact (set_all_get_other E _ _ _ _ Hset Hkey)|].
  split; [|reflexivity].
  intros Hnd key value Hin. exact (set_all_get E _ _ _ _ _ Hset Hnd Hin).
Qed.

End TablesMore.

Lemma update_parameters_contract_witness :
  let run := update_parameters Sample.E Sample.parameters
               [("line_width", VFloat 3); ("vase_mode", VBool true)] Sample.w0 in
  fst run
  = Ok {| defaults := [("line_width", "3.0"); ("travel_speed", "100");
                       ("vase_mode", "True")];
          sections := [("printer", [])] |}
  /\ ini (snd run) !! "input_parameters.txt"
     = Some (IniParsed
               {| defaults := [("line_width", "3.0"); ("travel_speed", "100");
                               ("vase_mode", "True")];
                  sections := [("printer", [])] |}).
Proof.
  intros run. split; [reflexivity|].
  destruct (update_parameters_contract Sample.E Sample.parameters
              [("line_width", VFloat 3); ("vase_mode", VBool true)] Sample.w0
              {| defaults := [("line_width", "3.0"); ("travel_speed", "100");
                              ("vase_mode", "True")];
                 sections := [("printer", [])] |} (snd run) eq_refl)
    as (_ & _ & _ & Hw).
  rewrite Hw. cbn [ini]. apply lookup_insert_eq.
Defined.

Lemma modes_select_by_message_witness :
  Dict.get "Metal 3D Printing" (modes Sample.E) = Some (Metal Sample.E)
  /\ Dict.keys (modes Sample.E) = ["FDM 3D Printing"; "Metal 3D Printing"; "Laser Cutting"].
Proof.
  destruct (modes_select_by_message Sample.E) as (_ & Hmetal & Hfdm).
  split; [apply Hmetal; discriminate|].
  apply Hfdm; discriminate.
Defined.

Lemma parse_options_ini_contract_witness :
  fst (parse_options_ini "options.ini" Sample.w0) = Ok ∅
  /\ fst (parse_options_ini "options.ini" Sample.w_options)
     = Ok {[ "line_width" := VStr "5" ]}.
Proof.
  destruct (parse_options_ini_contract "options.ini" Sample.w0) as (_ & Hnone & _).
  split; [exact (Hnone eq_refl)|]. vm_compute. reflexivity.
Defined.

(** ** Whole runs, beyond the claims *)

Ltac frame_end :=
  cbn [txt ini locate log logged fst snd];
  repeat split; try reflexivity;
  try (intros p Hp; now rewrite ?lookup_insert_ne by congruence).

Section RunMore.

Variable E : env.

Lemma Dict_set_id {V} k (v : V) d : Dict.get k d = Some v -> Dict.set k v d = d.
Proof.
  induction d as [|[k0 v0] d IH]; simpl; [discriminate|].
  destruct (String.eqb_spec k0 k) as [->|Hne].
  - now intros [= ->].
  - intros H. now rewrite IH.
Qed.

Lemma set_default_elsewhere cfg key value cfg' c :
  Cfg.set_default cfg key value = Ok cfg' ->
  Cfg.set_default c key value
  = Ok {| defaults := Dict.set (Cfg.lower key) value (defaults c);
          sections := sections c |}.
Proof.
  unfold Cfg.set_default.
  destruct (match value with EmptyString => true | _ => Cfg.before_set value end);
    [reflexivity|discriminate].
Qed.

Lemma set_all_accepts items : forall cfg cfg' key value,
  set_all E cfg items = Ok cfg' ->
  In (key, value) items ->
  exists c c', Cfg.set_default c key (py_str E value) = Ok c'.
Proof.
  induction items as [|[k v] items IH]; simpl; intros cfg cfg' key value;
    [intros _ []|].
  destruct (Cfg.set_default cfg k (py_str E v)) as [c|e] eqn:Hs; [|discriminate].
  intros H [[= -> ->]|Hin]; [eauto|exact (IH _ _ _ _ H Hin)].
Qed.

Lemma set_all_stored items : forall c,
  (forall key value,
      In (key, value) items ->
      Dict.get (Cfg.lower key) (defaults c) = Some (py_str E value)
      /\ exists c0 c0', Cfg.set_default c0 key (py_str E value) = Ok c0') ->
  set_all E c items = Ok c.
Proof.
  induction items as [|[k v] items IH]; intros c Hall; [reflexivity|].
  simpl. destruct (Hall k v (or_introl eq_refl)) as [Hget (c0 & c0' & Hacc)].
  rewrite (set_default_elsewhere _ _ _ _ c Hacc), (Dict_set_id _ _ _ Hget).
  replace {| defaults := defaults c; sections := sections c |} with c
    by now destruct c.
  apply IH. intros key value Hin. apply Hall. now right.
Qed.

(** A second pass of the same assignments changes nothing. *)
Lemma set_all_again items cfg cfg1 :
  NoDup (map (fun kv => Cfg.lower (fst kv)) items) ->
  set_all E cfg items = Ok cfg1 ->
  set_all E cfg1 items = Ok cfg1.
Proof.
  intros Hnd Hset. apply set_all_stored. intros key value Hin. split.
  - exact (set_all_get E _ _ _ _ _ Hset Hnd Hin).
  - exact (set_all_accepts _ _ _ _ _ Hset Hin).
Qed.

(** X9. The configuration that reaches the mode is the located file after
    one pass of assignments: the second pass, in [update_parameters],
    changes nothing.  The sections of the file and its options outside
    the nine parameters pass through; the nine parameters are always
    those of [param_dict], whatever the file held for them. *)
Theorem resolved_configuration_is_one_pass a w r w1 out located :
  cli_resolve E a w = (Ok (Some r), w1) ->
  locate w = Ok out ->
  read_located (ini w) (PyStr.strip out) = inr located ->
  store_parameters E located (param_dict a) default_params = Ok (r_config r)
  /\ sections (r_config r) = sections located
  /\ (forall key,
        ~ In key (Dict.keys default_params) ->
        Dict.get key (defaults (r_config r)) = Dict.get key (defaults located))
  /\ (forall key,
        In key (Dict.keys default_params) ->
        Dict.get key (defaults (r_config r))
        = Some (py_str E (item (param_dict a) key))).
Proof.
  intros Hres Hloc Hread.
  pose proof (cli_resolve_inv E _ _ _ _ Hres) as
    (out' & cfg0 & cfg1 & options & Hloc' & Hread' & _ & _ & Hs1 & Hs2 & _).
  rewrite Hloc in Hloc'. injection Hloc' as <-.
  rewrite Hread in Hread'. injection Hread' as <-.
  pose proof (set_all_again _ _ _ (param_dict_NoDup a) Hs1) as Hagain.
  rewrite Hagain in Hs2. injection Hs2 as Hcfg.
  rewrite store_parameters_param_dict, <- Hcfg.
  split; [exact Hs1|].
  split; [exact (set_all_sections E _ _ _ Hs1)|].
  split.
  - intros key Hkey. apply (set_all_get_other E _ _ _ _ Hs1).
    rewrite param_dict_keys. intros Hin. apply Hkey.
    apply list_elem_of_In in Hin. exact Hin.
  - intros key Hkey.
    assert (Hin : In (key, item (param_dict a) key) (param_dict a)
                  /\ Cfg.lower key = key).
    { simpl in Hkey.
      repeat (destruct Hkey as [<-|Hkey]; [split; [simpl; tauto|reflexivity]|]).
      contradiction. }
    destruct Hin as [Hin Hlow].
    pose proof (set_all_get E _ _ _ _ _ Hs1 (param_dict_NoDup a) Hin) as Hget.
    now rewrite Hlow in Hget.
Qed.

Lemma emits_ret P {A} (x : A) : emits P (ret x).
Proof. intros w. exists []. simpl. now rewrite app_nil_r. Qed.

Lemma emits_raise P {A} e : emits P (@raise A e).
Proof. intros w. exists []. simpl. now rewrite app_nil_r. Qed.

Lemma emits_lift P {A} (x : result A) : emits P (lift x).
Proof. intros w. exists []. simpl. now rewrite app_nil_r. Qed.

Lemma emits_emit (P : event -> bool) e : P e = true -> emits P (emit e).
Proof. intros He w. exists [e]. simpl. now rewrite He. Qed.

Lemma emits_write_text (P : event -> bool) path text :
  P (EvWriteText path text) = true -> emits P (write_text path text).
Proof. intros He w. exists [EvWriteText path text]. simpl. now rewrite He. Qed.

Lemma emits_read_text P path : emits P (read_text path).
Proof.
  intros w. exists []. unfold read_text.
  destruct (txt w !! path); simpl; now rewrite app_nil_r.
Qed.

Lemma emits_bind P {A B} (m : M A) (k : A -> M B) :
  emits P m -> (forall x, emits P (k x)) -> emits P (bind m k).
Proof.
  intros Hm Hk w. unfold bind.
  destruct (Hm w) as (evs1 & H1 & HP1).
  destruct (m w) as [[x|e] w1]; simpl in *.
  - destruct (Hk x w1) as (evs2 & H2 & HP2). exists (evs1 ++ evs2).
    rewrite H2, H1, <- app_assoc. split; [reflexivity|].
    now rewrite forallb_app, HP1, HP2.
  - now exists evs1.
Qed.

Lemma keeps_ret path {A} (x : A) : keeps_files path (ret x).
Proof. intros w. repeat split. Qed.

Lemma keeps_raise path {A} e : keeps_files path (@raise A e).
Proof. intros w. repeat split. Qed.

Lemma keeps_lift path {A} (x : result A) : keeps_files path (lift x).
Proof. intros w. repeat split. Qed.

Lemma keeps_emit path e : keeps_files path (emit e).
Proof. intros w. repeat split. Qed.

Lemma keeps_write_text path text : keeps_files path (write_text path text).
Proof.
  intros w. repeat split. intros p Hp. simpl. now rewrite lookup_insert_ne.
Qed.

Lemma keeps_read_text path path' : keeps_files path (read_text path').
Proof. intros w. unfold read_text. destruct (txt w !! path'); repeat split. Qed.

Lemma keeps_bind path {A B} (m : M A) (k : A -> M B) :
  keeps_files path m -> (forall x, keeps_files path (k x)) ->
  keeps_files path (bind m k).
Proof.
  intros Hm Hk w. unfold bind.
  destruct (Hm w) as (Hl1 & Hi1 & Ht1).
  destruct (m w) as [[x|e] w1]; simpl in *.
  - destruct (Hk x w1) as (Hl2 & Hi2 & Ht2).
    split; [congruence|]. split; [congruence|].
    intros p Hp. now rewrite Ht2, Ht1.
  - auto.
Qed.

Lemma cli_translate_keeps_files file a r :
  keeps_files (program_path E file r) (cli_translate E file a r).
Proof.
  unfold cli_translate.
  destruct (Dict.get (r_mode r) (modes E)) as [cmd|]; [|apply keeps_emit].
  destruct (py_float E (r_min_distance r)) as [x|e].
  - apply keeps_bind; [apply keeps_emit|intros _].
    apply keeps_bind; [apply keeps_lift|intros [lines|]]; [|apply keeps_ret].
    apply keeps_bind; [apply keeps_emit|intros _].
    apply keeps_bind; [apply keeps_write_text|intros _].
    apply keeps_bind.
    + unfold parse_3d_printing_stats.
      apply keeps_bind; [apply keeps_read_text|intros; apply keeps_lift].
    + intros st. unfold remove_semicolon_lines.
      apply keeps_bind; [apply keeps_read_text|intros; apply keeps_write_text].
  - destruct e; try apply keeps_raise. apply keeps_emit.
Qed.

Lemma cli_translate_calls_once file a r w :
  exists evs,
    log (snd (cli_translate E file a r w)) = log w ++ evs
    /\ length (List.filter is_execute evs) <= 1.
Proof.
  assert (Hnone : forall evs, forallb (fun ev => negb (is_execute ev)) evs = true ->
                              List.filter is_execute evs = []).
  { induction evs as [|e evs IH]; [reflexivity|]. simpl.
    destruct (is_execute e); [discriminate|]. exact IH. }
  unfold cli_translate.
  destruct (Dict.get (r_mode r) (modes E)) as [cmd|].
  - destruct (py_float E (r_min_distance r)) as [x|e].
    + match goal with
      | |- context [bind (emit ?e) ?k] =>
          assert (Hk : emits (fun ev => negb (is_execute ev)) (k tt))
      end.
      { apply emits_bind; [apply emits_lift|intros [lines|]]; [|apply emits_ret].
        apply emits_bind; [now apply emits_emit|intros _].
        apply emits_bind; [now apply emits_write_text|intros _].
        apply emits_bind.
        - unfold parse_3d_printing_stats.
          apply emits_bind; [apply emits_read_text|intros; apply emits_lift].
        - intros st. unfold remove_semicolon_lines.
          apply emits_bind; [apply emits_read_text|intros].
          now apply emits_write_text. }
      unfold bind at 1. rewrite emit_logged.
      match goal with
      | |- context [logged [?e] w] =>
          destruct (Hk (logged [e] w)) as (evs & Hlog & Hquiet);
          exists (e :: evs)
      end.
      split.
      * rewrite Hlog. cbn [log logged]. now rewrite <- app_assoc.
      * simpl. rewrite (Hnone _ Hquiet). simpl. lia.
    + assert (Hm : emits (fun ev => negb (is_execute ev))
                     (match e with
                      | ValueError => print "Error: Minimum distance must be a valid number."
                      | _ => raise e
                      end : M unit)).
      { destruct e; try apply emits_raise. now apply emits_emit. }
      destruct (Hm w) as (evs & Hlog & Hquiet). exists evs.
      split; [exact Hlog|]. rewrite (Hnone _ Hquiet). simpl. lia.
  - exists [EvPrint (invalid_mode_text E (r_mode r))]. split; [reflexivity|simpl; lia].
Qed.

Lemma cli_resolve_frame a w :
  let w1 := snd (cli_resolve E a w) in
  locate w1 = locate w
  /\ txt w1 = txt w
  /\ forall p, p <> "input_parameters.txt" -> ini w1 !! p = ini w !! p.
Proof.
  cbv beta iota zeta delta
    [cli_resolve parse_options_ini update_parameters write_config bind lift ret].
  rewrite read_input_parameters_eq.
  destruct (locate w) as [out|e] eqn:Hloc; run_step; [|frame_end; now rewrite Hloc].
  destruct (read_located (ini w) (PyStr.strip out)) as [msg|cfg0]; run_step;
    [frame_end; now rewrite Hloc|].
  destruct (parse_options (ini w) "options.ini") as [options|e]; run_step;
    [|frame_end; now rewrite Hloc].
  destruct (update_parameters_based_on_input E options _ _ _ _)
    as [[[[ws lw] lh] flh]|e]; run_step; [|frame_end; now rewrite Hloc].
  destruct (store_parameters E cfg0 (param_dict a) default_params) as [cfg1|e];
    run_step; [|frame_end; now rewrite Hloc].
  destruct (set_all E cfg1 (param_dict a)) as [cfg2|e]; run_step;
    [|frame_end; now rewrite Hloc].
  destruct (Cfg.get cfg2 "mode") as [m|e]; run_step; [|frame_end; now rewrite Hloc].
  destruct (getfloat E cfg2 "min_dist" (default_of "min_dist")) as [md|e]; run_step;
    [|frame_end; now rewrite Hloc].
  destruct (Cfg.getboolean cfg2 "use_different_output" false) as [b|e]; run_step;
    [|frame_end; now rewrite Hloc].
  destruct (Cfg.get cfg2 "output") as [od|e]; run_step; frame_end; now rewrite Hloc.
Qed.

(** X10. Whatever its outcome, a run leaves [locate] alone, changes no
    configuration file other than [input_parameters.txt] and at most one
    text file, and calls a mode at most once. *)
Theorem run_footprint file a w :
  let w2 := snd (cli E file a w) in
  locate w2 = locate w
  /\ (forall p, p <> "input_parameters.txt" -> ini w2 !! p = ini w !! p)
  /\ (exists path, forall p, p <> path -> txt w2 !! p = txt w !! p)
  /\ exists evs,
      log w2 = log w ++ evs /\ length (List.filter is_execute evs) <= 1.
Proof.
  destruct (cli_resolve_frame a w) as (Hloc & Htxt & Hini).
  destruct (cli_resolve E a w) as [res w1] eqn:Hres.
  destruct (cli_resolve_quiet E a w res w1 Hres) as (_ & evs1 & Hlog1 & Hquiet).
  assert (Hnone : List.filter is_execute evs1 = []).
  { clear Hlog1. induction evs1 as [|e evs1 IH]; [reflexivity|].
    simpl in Hquiet. apply andb_prop in Hquiet as [He Hq].
    simpl. destruct e; try discriminate; now apply IH. }
  cbn [snd] in Hloc, Htxt, Hini.
  unfold cli, bind. rewrite Hres.
  destruct res as [[r|]|e]; cbn [snd ret].
  - destruct (cli_translate_keeps_files file a r w1) as (Hl & Hi & Ht).
    destruct (cli_translate_calls_once file a r w1) as (evs2 & Hlog2 & Hcount).
    split; [congruence|].
    split; [intros p Hp; rewrite Hi; now apply Hini|].
    split; [exists (program_path E file r); intros p Hp; rewrite Ht by exact Hp;
            now rewrite Htxt|].
    exists (evs1 ++ evs2). rewrite Hlog2, Hlog1, <- app_assoc.
    split; [reflexivity|].
    rewrite List.filter_app, Hnone. exact Hcount.
  - split; [exact Hloc|]. split; [exact Hini|].
    split; [exists ""; intros p _; now rewrite Htxt|].
    exists evs1. split; [exact Hlog1|]. rewrite Hnone. simpl. lia.
  - split; [exact Hloc|]. split; [exact Hini|].
    split; [exists ""; intros p _; now rewrite Htxt|].
    exists evs1. split; [exact Hlog1|]. rewrite Hnone. simpl. lia.
Qed.

End RunMore.

Lemma resolved_configuration_is_one_pass_witness :
  let r := Sample.resolution Args.omitted Sample.w0 in
  sections (r_config r) = sections Sample.parameters
  /\ Dict.get "travel_speed" (defaults (r_config r)) = Some "100"
  /\ Dict.get "line_width" (defaults (r_config r)) = Some "2.4".
Proof.
  intros r.
  destruct (resolved_configuration_is_one_pass Sample.E Args.omitted Sample.w0 r
              (snd (cli_resolve Sample.E Args.omitted Sample.w0))
              ("/etc/duplex/input_parameters.txt" +:+ PyStr.newline) Sample.parameters)
    as (_ & Hsec & Hother & Hnine); [vm_compute; reflexivity..|].
  split; [exact Hsec|]. split.
  - rewrite Hother; [reflexivity|]. simpl. intuition discriminate.
  - rewrite Hnine; [reflexivity|]. simpl. tauto.
Defined.

(** ** Runs that stop before anything is written, and runs that finish *)

Section RunEnds.

Variable E : env.

Lemma override_raises options key v current :
  options !! key = Some (VStr v) ->
  float_of_str E v = None ->
  override E options key current = Raise ValueError.
Proof. intros Hk Hv. unfold override. simpl. now rewrite Hk; simpl; rewrite Hv. Qed.

Lemma update_parameters_based_on_input_raises options key v ws lw lh flh :
  In key ["layer_height"; "first_layer_height"; "line_width"] ->
  options !! key = Some (VStr v) ->
  float_of_str E v = None ->
  exists e, update_parameters_based_on_input E options ws lw lh flh = Raise e.
Proof.
  intros Hkey Hk Hv. unfold update_parameters_based_on_input.
  destruct Hkey as [<-|[<-|[<-|[]]]].
  - rewrite (override_raises _ _ _ _ Hk Hv). eauto.
  - destruct (override E options "layer_height" lh); [|eauto].
    rewrite (override_raises _ _ _ _ Hk Hv). eauto.
  - destruct (override E options "layer_height" lh); [|eauto].
    destruct (override E options "first_layer_height" flh); [|eauto].
    rewrite (override_raises _ _ _ _ Hk Hv). eauto.
Qed.

(** What [cli] does when the parameter file has been read: it parses the
    options, takes the header values and stores the parameters, and an
    exception in any of the three ends the run with nothing written. *)
Lemma cli_aborts_before_write file a w out located :
  locate w = Ok out ->
  read_located (ini w) (PyStr.strip out) = inr located ->
  (forall options hdr,
      parse_options (ini w) "options.ini" = Ok options ->
      update_parameters_based_on_input E options
        (item (param_dict a) "welding_speed") (item (param_dict a) "line_width")
        (item (param_dict a) "layer_height") (item (param_dict a) "first_layer_height")
      = Ok hdr ->
      exists e, set_all E located (param_dict a) = Raise e) ->
  exists e,
    cli E file a w
    = (Raise e, logged [EvSubprocess ["locate"; "input_parameters.txt"]] w).
Proof.
  intros Hloc Hread Hstop.
  cbv beta iota zeta delta
    [cli cli_resolve parse_options_ini update_parameters write_config bind lift ret].
  rewrite read_input_parameters_eq, Hloc, Hread. run_step.
  destruct (parse_options (ini w) "options.ini") as [options|e] eqn:Hopt; run_step;
    [|eauto].
  destruct (update_parameters_based_on_input E options _ _ _ _)
    as [hdr|e] eqn:Hup; run_step; [|eauto].
  destruct (Hstop options hdr eq_refl Hup) as [e He].
  destruct hdr as [[[ws lw] lh] flh]. run_step.
  rewrite store_parameters_param_dict, He. run_step. eauto.
Qed.

(** X11. A value in [options.ini] for the layer height, the first layer
    height or the line width that [float] rejects ends the run with an
    exception before anything is written: the world only gains the record
    of the [locate] call. *)
Theorem bad_option_value_aborts_before_write file a w out located config key v :
  locate w = Ok out ->
  read_located (ini w) (PyStr.strip out) = inr located ->
  ini w !! "options.ini" = Some (IniParsed config) ->
  In key ["layer_height"; "first_layer_height"; "line_width"] ->
  Dict.get key (defaults config) = Some v ->
  PyStr.contains Cfg.percent v = false ->
  float_of_str E v = None ->
  exists e,
    cli E file a w
    = (Raise e, logged [EvSubprocess ["locate"; "input_parameters.txt"]] w).
Proof.
  intros Hloc Hread Hini Hkey Hget Hplain Hbad.
  apply (cli_aborts_before_write file a w out located Hloc Hread).
  intros options hdr Hopt Hup. exfalso.
  assert (Hlow : Cfg.lower key = key)
    by (destruct Hkey as [<-|[<-|[<-|[]]]]; reflexivity).
  assert (Hk : options !! key = Some (VStr v)).
  { unfold parse_options in Hopt. rewrite Hini in Hopt.
    apply (collect_options_lookup _ _ _ _ _ _ Hopt).
    - apply get_plain; [now rewrite Hlow|exact Hplain].
    - left. exact (Dict_get_keys _ _ _ Hget). }
  destruct (update_parameters_based_on_input_raises options key v
              (item (param_dict a) "welding_speed") (item (param_dict a) "line_width")
              (item (param_dict a) "layer_height")
              (item (param_dict a) "first_layer_height") Hkey Hk Hbad) as [e He].
  congruence.
Qed.

Lemma set_all_rejects items : forall cfg key value,
  In (key, value) items ->
  Cfg.before_set (py_str E value) = false ->
  exists e, set_all E cfg items = Raise e.
Proof.
  induction items as [|[k v] items IH]; simpl; intros cfg key value; [intros []|].
  intros Hin Hbad.
  destruct (Cfg.set_default cfg k (py_str E v)) as [c|e] eqn:Hs; [|eauto].
  destruct Hin as [[= -> ->]|Hin]; [|exact (IH _ _ _ Hin Hbad)].
  exfalso. unfold Cfg.set_default in Hs.
  destruct (py_str E value) as [|c0 s0] eqn:Hv; [discriminate Hbad|].
  now rewrite Hbad in Hs.
Qed.

(** X12. A value given on the command line whose text configparser
    refuses to store, such as one with a lone percent sign, ends the run
    with an exception before anything is written. *)
Theorem rejected_text_aborts_before_write file a w out located key value :
  locate w = Ok out ->
  read_located (ini w) (PyStr.strip out) = inr located ->
  supplied a key = Some value ->
  Cfg.before_set (py_str E value) = false ->
  exists e,
    cli E file a w
    = (Raise e, logged [EvSubprocess ["locate"; "input_parameters.txt"]] w).
Proof.
  intros Hloc Hread Hsup Hbad.
  apply (cli_aborts_before_write file a w out located Hloc Hread).
  intros options hdr _ _.
  destruct (supplied_in_param_dict a key value Hsup) as [Hin _].
  exact (set_all_rejects _ _ _ _ Hin Hbad).
Qed.

(** X13. When a run whose translation returned lines returns normally,
    the program file holds the seven header lines, made of the resolved
    values and the scraped statistics, followed by the cleaned lines of
    the formatted program. *)
Theorem successful_run_writes_program file a w r w1 cmd x lines text st w2 :
  cli_resolve E a w = (Ok (Some r), w1) ->
  Dict.get (r_mode r) (modes E) = Some cmd ->
  py_float E (r_min_distance r) = Ok x ->
  execute cmd {| file := file; min_distance := x; verbose := Args.v a;
                 params := r_config r |} = Ok (Some lines) ->
  <[program_path E file r := format_program E lines (stem E (io_name file))]> (txt w)
    !! io_name file = Some text ->
  scan_stats E (PyStr.readlines text) no_stats = Ok st ->
  cli E file a w = (Ok tt, w2) ->
  txt w2 !! program_path E file r
  = Some (PyStr.writelines
            ([ "; Welding speed = " +:+ py_str E (r_welding_speed r) +:+ PyStr.newline;
               "; Line_width = " +:+ py_str E (r_line_width r) +:+ PyStr.newline;
               "; Layer_height = " +:+ py_str E (r_layer_height r) +:+ PyStr.newline;
               "; First_layer_height = " +:+ py_str E (r_first_layer_height r)
               +:+ PyStr.newline;
               "Estimated_printing_time = " +:+ py_str E (estimated_printing_time st)
               +:+ PyStr.newline;
               "Total_filament_cost = " +:+ py_str E (total_filament_cost st)
               +:+ PyStr.newline;
               "Total_filament_used = " +:+ py_str E (total_filament_used st)
               +:+ PyStr.newline ]
             ++ cleaned_lines
                  (PyStr.readlines (format_program E lines (stem E (io_name file)))))).
Proof.
  intros Hres Hm Hx Hex Htext Hst Hrun.
  pose proof (cli_resolve_inv E _ _ _ _ Hres) as
    (out & cfg0 & cfg1 & options & _ & _ & _ & _ & _ & _ & _ & _ & _ & _ & ->).
  destruct (cli_translate_output E file a r (resolved_world w (r_config r)) cmd x
              lines text st Hm Hx Hex Htext Hst) as (w2' & Hrun' & Hout).
  unfold cli, bind in Hrun. rewrite Hres, Hrun' in Hrun.
  injection Hrun as <-. exact Hout.
Qed.

End RunEnds.

Lemma bad_option_value_aborts_before_write_witness :
  Dict.get "layer_height" [("layer_height", "thick")] = Some "thick"
  /\ float_of_str Sample.E "thick" = None
  /\ exists e,
      cli Sample.E Sample.source Args.omitted Cases.w_bad_options
      = (Raise e, logged [EvSubprocess ["locate"; "input_parameters.txt"]]
                    Cases.w_bad_options).
Proof.
  split; [reflexivity|]. split; [reflexivity|].
  apply (bad_option_value_aborts_before_write Sample.E Sample.source Args.omitted
           Cases.w_bad_options ("/etc/duplex/input_parameters.txt" +:+ PyStr.newline)
           Sample.parameters
           {| defaults := [("layer_height", "thick")]; sections := [] |}
           "layer_height" "thick");
    try reflexivity.
  simpl. tauto.
Defined.

Lemma rejected_text_aborts_before_write_witness :
  supplied (Sample.with_mode "50%") "mode" = Some (VStr "50%")
  /\ Cfg.before_set "50%" = false
  /\ exists e,
      cli Sample.E Sample.source (Sample.with_mode "50%") Sample.w0
      = (Raise e, logged [EvSubprocess ["locate"; "input_parameters.txt"]] Sample.w0).
Proof.
  split; [reflexivity|]. split; [reflexivity|].
  apply (rejected_text_aborts_before_write Sample.E Sample.source
           (Sample.with_mode "50%") Sample.w0
           ("/etc/duplex/input_parameters.txt" +:+ PyStr.newline)
           Sample.parameters "mode" (VStr "50%"));
    reflexivity.
Defined.

Lemma successful_run_writes_program_witness :
  let r := Sample.resolution Args.omitted Sample.w0 in
  let run := cli Sample.E Sample.source Args.omitted Sample.w0 in
  program_path Sample.E Sample.source r = "./part.pg"
  /\ fst run = Ok tt
  /\ txt (snd run) !! "./part.pg"
     = Some (PyStr.writelines
               [ "; Welding speed = 30.0" +:+ PyStr.newline;
                 "; Line_width = 2.4" +:+ PyStr.newline;
                 "; Layer_height = 1" +:+ PyStr.newline;
                 "; First_layer_height = 1.2" +:+ PyStr.newline;
                 "Estimated_printing_time = None" +:+ PyStr.newline;
                 "Total_filament_cost = None" +:+ PyStr.newline;
                 "Total_filament_used = None" +:+ PyStr.newline;
                 "G1 X1" +:+ PyStr.newline;
                 "G1 X2" +:+ PyStr.newline ]).
Proof.
  intros r run. split; [reflexivity|]. split; [reflexivity|].
  refine (eq_trans
            (successful_run_writes_program Sample.E Sample.source Args.omitted
               Sample.w0 r (snd (cli_resolve Sample.E Args.omitted Sample.w0))
               (Metal Sample.E) 2%float (PyStr.readlines (io_text Sample.source))
               (io_text Sample.source) no_stats (snd run) _ _ _ _ _ _ _) _);
    vm_compute; reflexivity.
Defined.

(** ** Branches of [cli] that no run takes *)

Section DeadBranches.

Variable E : env.

Lemma get_present cfg key v o :
  Dict.get (Cfg.lower key) (defaults cfg) = Some v ->
  Cfg.get cfg key = Ok o ->
  exists s, o = Some s.
Proof.
  intros Hget. unfold Cfg.get. rewrite Hget.
  destruct (Cfg.interpolate_some _ _ _); [|discriminate].
  intros [= <-]. eauto.
Qed.

(** X14. The check [float(min_distance)] of [cli] cannot fail: when the
    run reaches it the minimum distance is already a float, because
    [min_dist] is always stored and [getfloat] has converted it.  So the
    message about an invalid minimum distance is never printed. *)
Theorem min_distance_check_never_fails a w r w1 :
  cli_resolve E a w = (Ok (Some r), w1) ->
  exists x, r_min_distance r = VFloat x /\ py_float E (r_min_distance r) = Ok x.
Proof.
  intros Hres.
  assert (Hin : In ("min_dist", item (param_dict a) "min_dist") (param_dict a))
    by (simpl; tauto).
  pose proof (resolved_config_get E a w r w1 _ _ Hres Hin) as Hget.
  pose proof (cli_resolve_inv E _ _ _ _ Hres) as
    (out & cfg0 & cfg1 & options & _ & _ & _ & _ & _ & _ & _ & Hmd & _).
  unfold getfloat in Hmd.
  destruct (Cfg.get (r_config r) "min_dist") as [o|e] eqn:Hcfg; [|discriminate].
  destruct (get_present _ _ _ _ Hget Hcfg) as [s ->].
  destruct (py_float E (VStr s)) as [f|e]; [|discriminate].
  injection Hmd as <-. exists f. split; reflexivity.
Qed.

(** X15. The output directory is never taken from the place of the
    source file: [output] is always stored, so the program path is built
    on the configured directory, which is [./] when the command line
    gives none. *)
Theorem output_directory_always_configured a w r w1 :
  cli_resolve E a w = (Ok (Some r), w1) ->
  (exists dir,
      r_out_dir r = Some dir
      /\ forall file,
          program_path E file r = joinpath E dir (stem E (io_name file) +:+ ".pg"))
  /\ (supplied a "output" = None -> r_out_dir r = Some "./").
Proof.
  intros Hres.
  assert (Hin : In ("output", item (param_dict a) "output") (param_dict a))
    by (simpl; tauto).
  pose proof (resolved_config_get E a w r w1 _ _ Hres Hin) as Hget.
  pose proof (cli_resolve_inv E _ _ _ _ Hres) as
    (out & cfg0 & cfg1 & options & _ & _ & _ & _ & _ & _ & _ & _ & _ & Hout & _).
  split.
  - destruct (get_present _ _ _ _ Hget Hout) as [dir Hdir].
    exists dir. split; [exact Hdir|].
    intros file. unfold program_path. now rewrite Hdir.
  - intros Hsup.
    assert (Hitem : item (param_dict a) "output" = VStr "./").
    { unfold supplied in Hsup. cbn in Hsup. cbn.
      destruct (Args.output a) as [[|c s]|]; [reflexivity|discriminate|reflexivity]. }
    rewrite Hitem in Hget.
    rewrite (get_plain _ _ _ Hget eq_refl) in Hout. now injection Hout as <-.
Qed.

End DeadBranches.

Lemma min_distance_check_never_fails_witness :
  exists x,
    r_min_distance (Sample.resolution (Sample.with_min_dist (-1)) Sample.w0) = VFloat x
    /\ py_float Sample.E
         (r_min_distance (Sample.resolution (Sample.with_min_dist (-1)) Sample.w0))
       = Ok x.
Proof.
  apply (min_distance_check_never_fails Sample.E (Sample.with_min_dist (-1)) Sample.w0
           _ (snd (cli_resolve Sample.E (Sample.with_min_dist (-1)) Sample.w0))).
  vm_compute. reflexivity.
Defined.

Lemma output_directory_always_configured_witness :
  supplied Args.omitted "output" = None
  /\ r_out_dir (Sample.resolution Args.omitted Sample.w0) = Some "./".
Proof.
  split; [reflexivity|].
  destruct (output_directory_always_configured Sample.E Args.omitted Sample.w0
              (Sample.resolution Args.omitted Sample.w0)
              (snd (cli_resolve Sample.E Args.omitted Sample.w0)))
    as (_ & Hdefault); [vm_compute; reflexivity|].
  exact (Hdefault eq_refl).
Defined.

(** * Precedence, resolution and defaults *)

Section Resolution.

Variable E : env.



(** Once the mode is called, the run writes no configuration and calls
    no mode again. *)
Lemma cli_translate_after_call file a r w cmd x :
  Dict.get (r_mode r) (modes E) = Some cmd ->
  py_float E (r_min_distance r) = Ok x ->
  exists evs,
    log (snd (cli_translate E file a r w))
    = log w ++ EvExecute (r_mode r)
                 {| file := file; min_distance := x; verbose := Args.v a;
                    params := r_config r |} :: evs
    /\ forallb after_call evs = true.
Proof.
  intros Hm Hx. unfold cli_translate. rewrite Hm, Hx.
  match goal with
  | |- context [bind (emit ?e) ?k] => assert (Hk : emits after_call (k tt))
  end.
  { apply emits_bind; [apply emits_lift|intros [lines|]]; [|apply emits_ret].
    apply emits_bind; [now apply emits_emit|intros _].
    apply emits_bind; [now apply emits_write_text|intros _].
    apply emits_bind.
    - unfold parse_3d_printing_stats.
      apply emits_bind; [apply emits_read_text|intros; apply emits_lift].
    - intros st. unfold remove_semicolon_lines.
      apply emits_bind; [apply emits_read_text|intros].
      now apply emits_write_text. }
  unfold bind at 1. rewrite emit_logged.
  match goal with
  | |- context [logged [?e] w] =>
      destruct (Hk (logged [e] w)) as (evs & Hlog & Hafter)
  end.
  exists evs. split; [|exact Hafter].
  rewrite Hlog. cbn [log logged]. now rewrite <- app_assoc.
Qed.

Lemma modes_fold_mem mode (l : list (CLICommand (program E))) : forall acc,
  (exists m, In m l /\ message m = mode) \/ (exists c, Dict.get mode acc = Some c) ->
  exists c,
    Dict.get mode (fold_left (fun acc m => Dict.set (message m) m acc) l acc) = Some c.
Proof.
  induction l as [|m l IH]; simpl; intros acc H.
  - destruct H as [(m & [] & _)|H]; exact H.
  - apply IH.
    destruct H as [(m0 & [<-|Hin] & Hmsg)|[c Hc]].
    + right. exists m. rewrite <- Hmsg. apply Dict_get_set_eq.
    + left. eauto.
    + right. destruct (String.eqb_spec (message m) mode) as [<-|Hne].
      * exists m. apply Dict_get_set_eq.
      * exists c. now rewrite Dict_get_set_ne.
Qed.

(** The texts [modes] accepts are the messages of the three modes. *)
Lemma modes_accepts mode :
  (exists cmd, Dict.get mode (modes E) = Some cmd)
  <-> (message (FDM E) = mode \/ message (Metal E) = mode
       \/ message (LaserCut E) = mode).
Proof.
  split.
  - intros [cmd Hcmd]. destruct (modes_lookup E _ _ Hcmd) as [Hwhich Hmsg].
    destruct Hwhich as [->| [->| ->]]; auto.
  - intros H. apply modes_fold_mem. left.
    destruct H as [H|[H|H]]; eexists; (split; [|exact H]); simpl; auto.
Qed.


(** C3, as amended. The configuration a mode receives is complete before
    the mode is called, is passed to it as [params], and is made once:
    after the call the run writes no configuration and calls no mode
    again, and [input_parameters.txt] still holds the configuration the
    mode received.  But it is built from the file found by [locate] and
    from the command line, with [options.ini] read on the way for the
    header values, and it is written to [input_parameters.txt] in the
    working directory before the mode is called. *)
Theorem configuration_resolved_before_translation file a w r w1 cmd x :
  cli_resolve E a w = (Ok (Some r), w1) ->
  Dict.get (r_mode r) (modes E) = Some cmd ->
  py_float E (r_min_distance r) = Ok x ->
  (exists out located stored options,
      locate w = Ok out
      /\ read_located (ini w) (PyStr.strip out) = inr located
      /\ parse_options (ini w) "options.ini" = Ok options
      /\ update_parameters_based_on_input E options
           (item (param_dict a) "welding_speed") (item (param_dict a) "line_width")
           (item (param_dict a) "layer_height")
           (item (param_dict a) "first_layer_height")
         = Ok (r_welding_speed r, r_line_width r, r_layer_height r,
               r_first_layer_height r)
      /\ set_all E located (param_dict a) = Ok stored
      /\ set_all E stored (param_dict a) = Ok (r_config r))
  /\ ini w1 !! "input_parameters.txt" = Some (IniParsed (r_config r))
  /\ exists res w2 evs,
      cli E file a w = (res, w2)
      /\ log w2 = log w ++ [EvSubprocess ["locate"; "input_parameters.txt"];
                            EvWriteConfig "input_parameters.txt" (r_config r);
                            EvExecute (r_mode r)
                              {| file := file; min_distance := x; verbose := Args.v a;
                                 params := r_config r |}] ++ evs
      /\ forallb after_call evs = true
      /\ ini w2 = ini w1
      /\ ini w2 !! "input_parameters.txt" = Some (IniParsed (r_config r)).
Proof.
  intros Hres Hm Hx.
  pose proof (cli_resolve_inv E _ _ _ _ Hres) as
    (out & cfg0 & cfg1 & options & Hloc & Hread & Hopt & Hup & Hs1 & Hs2 & _ & _ & _
     & _ & ->).
  split; [exists out, cfg0, cfg1, options; auto 10|].
  split; [cbn [ini resolved_world]; apply lookup_insert_eq|].
  destruct (cli_translate_after_call file a r (resolved_world w (r_config r)) cmd x
              Hm Hx) as (evs & Hlog & Hafter).
  destruct (cli_translate_keeps_files E file a r (resolved_world w (r_config r)))
    as (_ & Hini & _).
  exists (fst (cli_translate E file a r (resolved_world w (r_config r)))),
         (snd (cli_translate E file a r (resolved_world w (r_config r)))), evs.
  split; [unfold cli, bind; rewrite Hres; apply surjective_pairing|].
  split; [rewrite Hlog; cbn [log resolved_world]; now rewrite <- app_assoc|].
  split; [exact Hafter|]. split; [exact Hini|].
  rewrite Hini. cbn [ini resolved_world]. apply lookup_insert_eq.
Qed.


(** C6, as amended. A field the command line leaves out takes the
    built-in default: minimum distance 2, vase mode off, welding speed
    30.0, inversion off, line width 2.4, layer height 1, first layer
    height 1.2, and the mode text [Metal 3D Printing].  That default is
    what the configuration handed to the mode stores and, when
    [options.ini] is silent too, what the header shows; without [-v] the
    mode is called with verbosity off.  The mode text is accepted exactly
    when it is the message of [FDM], [Metal] or [LaserCut], and the mode
    then called is one of the three, with that message: for the default
    text it is [Metal], when [Metal] carries that message and [LaserCut]
    does not. *)
Theorem omitted_fields_take_defaults file a w r w1 :
  cli_resolve E a w = (Ok (Some r), w1) ->
  (default_of "min_dist" = VInt 2
   /\ default_of "vase_mode" = VBool false
   /\ default_of "welding_speed" = VFloat 30.0
   /\ default_of "inverted" = VBool false
   /\ default_of "line_width" = VFloat 2.4
   /\ default_of "layer_height" = VInt 1
   /\ default_of "first_layer_height" = VFloat 1.2
   /\ default_of "mode" = VStr "Metal 3D Printing")
  /\ (forall key,
        In key (Dict.keys default_params) ->
        supplied a key = None ->
        Dict.get key (param_dict a) = Some (default_of key)
        /\ Dict.get key (defaults (r_config r)) = Some (py_str E (default_of key)))
  /\ (supplied a "welding_speed" = None ->
      r_welding_speed r = default_of "welding_speed")
  /\ (supplied a "line_width" = None ->
      options_ini_defines w "line_width" = false ->
      r_line_width r = default_of "line_width")
  /\ (supplied a "layer_height" = None ->
      options_ini_defines w "layer_height" = false ->
      r_layer_height r = default_of "layer_height")
  /\ (supplied a "first_layer_height" = None ->
      options_ini_defines w "first_layer_height" = false ->
      r_first_layer_height r = default_of "first_layer_height")
  /\ (supplied a "min_dist" = None ->
      py_float E (VStr "2") = Ok 2%float ->
      r_min_distance r = VFloat 2)
  /\ (supplied a "mode" = None -> r_mode r = "Metal 3D Printing")
  /\ ((exists cmd, Dict.get (r_mode r) (modes E) = Some cmd)
      <-> (message (FDM E) = r_mode r \/ message (Metal E) = r_mode r
           \/ message (LaserCut E) = r_mode r))
  /\ (forall cmd,
        Dict.get (r_mode r) (modes E) = Some cmd ->
        (cmd = FDM E \/ cmd = Metal E \/ cmd = LaserCut E)
        /\ message cmd = r_mode r)
  /\ (supplied a "mode" = None ->
      message (Metal E) = "Metal 3D Printing" ->
      message (LaserCut E) <> "Metal 3D Printing" ->
      Dict.get (r_mode r) (modes E) = Some (Metal E))
  /\ (Args.v a = false ->
      forall cmd x,
        Dict.get (r_mode r) (modes E) = Some cmd ->
        py_float E (r_min_distance r) = Ok x ->
        exists evs,
          log (snd (cli E file a w))
          = log w ++ [EvSubprocess ["locate"; "input_parameters.txt"];
                      EvWriteConfig "input_parameters.txt" (r_config r);
                      EvExecute (r_mode r)
                        {| file := file; min_distance := x; verbose := false;
                           params := r_config r |}] ++ evs).
Proof.
  intros Hres.
  assert (Hkey : forall key, In key (Dict.keys default_params) ->
                             supplied a key = None ->
                             In (key, default_of key) (param_dict a)
                             /\ Cfg.lower key = key).
  { intros key Hin Hsup. now apply omitted_in_param_dict. }
  assert (Hall : forall key, In key (Dict.keys default_params) ->
                             supplied a key = None -> _) by
    (intros key Hin Hsup;
     exact (resolved_values E a w r w1 key (default_of key) Hres
              (proj1 (Hkey key Hin Hsup)))).
  split; [repeat split|].
  split.
  { intros key Hin Hsup. destruct (Hkey key Hin Hsup) as [Hpd Hlow]. split.
    - apply Dict_In_get; [|exact Hpd].
      apply (bool_decide_unpack _). vm_compute. exact I.
    - destruct (Hall key Hin Hsup) as [Hget _]. now rewrite Hlow in Hget. }
  split.
  { intros Hsup. apply (Hall "welding_speed"); [simpl; tauto|exact Hsup|reflexivity]. }
  split.
  { intros Hsup Hdef.
    apply (Hall "line_width"); [simpl; tauto|exact Hsup|reflexivity|exact Hdef]. }
  split.
  { intros Hsup Hdef.
    apply (Hall "layer_height"); [simpl; tauto|exact Hsup|reflexivity|exact Hdef]. }
  split.
  { intros Hsup Hdef.
    apply (Hall "first_layer_height");
      [simpl; tauto|exact Hsup|reflexivity|exact Hdef]. }
  split.
  { intros Hsup Hx.
    apply (Hall "min_dist"); [simpl; tauto|exact Hsup|reflexivity|reflexivity|exact Hx]. }
  split.
  { intros Hsup.
    apply (Hall "mode"); [simpl; tauto|exact Hsup|reflexivity|reflexivity]. }
  split; [apply modes_accepts|].
  split; [intros cmd Hcmd; now apply modes_lookup|].
  split.
  { intros Hsup HM HL.
    assert (Hr : r_mode r = "Metal 3D Printing")
      by (apply (Hall "mode"); [simpl; tauto|exact Hsup|reflexivity|reflexivity]).
    rewrite Hr. unfold modes. cbn [fold_left].
    rewrite Dict_get_set_ne by exact HL.
    rewrite <- HM. apply Dict_get_set_eq. }
  intros Hv cmd x Hm Hx.
  pose proof (cli_resolve_inv E _ _ _ _ Hres) as
    (out & cfg0 & cfg1 & options & _ & _ & _ & _ & _ & _ & _ & _ & _ & _ & ->).
  destruct (cli_translate_after_call file a r (resolved_world w (r_config r)) cmd x
              Hm Hx) as (evs & Hlog & _).
  exists evs. unfold cli, bind. rewrite Hres. cbn [snd].
  rewrite Hlog, Hv. cbn [log resolved_world]. now rewrite <- app_assoc.
Qed.

End Resolution.


Lemma configuration_resolved_before_translation_witness :
  let r := Sample.resolution Args.omitted Sample.w0 in
  Dict.get (r_mode r) (modes Sample.E) = Some (Metal Sample.E)
  /\ py_float Sample.E (r_min_distance r) = Ok 2%float
  /\ ini (snd (cli_resolve Sample.E Args.omitted Sample.w0)) !! "input_parameters.txt"
     = Some (IniParsed (r_config r))
  /\ exists res w2 evs,
      cli Sample.E Sample.source Args.omitted Sample.w0 = (res, w2)
      /\ log w2 = [EvSubprocess ["locate"; "input_parameters.txt"];
                   EvWriteConfig "input_parameters.txt" (r_config r);
                   EvExecute "Metal 3D Printing"
                     {| file := Sample.source; min_distance := 2%float;
                        verbose := false; params := r_config r |}] ++ evs
      /\ forallb after_call evs = true
      /\ ini w2 !! "input_parameters.txt" = Some (IniParsed (r_config r)).
Proof.
  intros r.
  destruct (configuration_resolved_before_translation Sample.E Sample.source
              Args.omitted Sample.w0 r
              (snd (cli_resolve Sample.E Args.omitted Sample.w0))
              (Metal Sample.E) 2%float)
    as (_ & Hini & res & w2 & evs & Hrun & Hlog & Hafter & _ & Hkept);
    [vm_compute; reflexivity..|].
  split; [reflexivity|]. split; [reflexivity|]. split; [exact Hini|].
  exists res, w2, evs. auto.
Defined.


Lemma omitted_fields_take_defaults_witness :
  let r := Sample.resolution Args.omitted Sample.w0 in
  Dict.get "min_dist" (defaults (r_config r)) = Some "2"
  /\ r_min_distance r = VFloat 2
  /\ r_line_width r = VFloat 2.4
  /\ r_layer_height r = VInt 1
  /\ r_mode r = "Metal 3D Printing"
  /\ Dict.get (r_mode r) (modes Sample.E) = Some (Metal Sample.E).
Proof.
  intros r.
  destruct (omitted_fields_take_defaults Sample.E Sample.source Args.omitted Sample.w0 r
              (snd (cli_resolve Sample.E Args.omitted Sample.w0)))
    as (_ & Hstore & _ & Hlw & Hlh & _ & Hmd & Hmode & _ & _ & Hmetal & _);
    [vm_compute; reflexivity|].
  split; [apply (Hstore "min_dist"); [simpl; tauto|reflexivity]|].
  split; [apply Hmd; reflexivity|].
  split; [apply Hlw; reflexivity|].
  split; [apply Hlh; reflexivity|].
  split; [apply Hmode; reflexivity|].
  apply Hmetal; [reflexivity|reflexivity|discriminate].
Defined.

(** C6 fails as stated: the mode of a command line that names none is
    the text [Metal 3D Printing], which is none of [FDM], [Metal] and
    [LaserCut]; where the three modes carry these names, the run rejects
    it and calls no mode. *)
Lemma omitted_mode_is_not_a_mode_name :
  let run := cli Cases.E_spec Sample.source Args.omitted Sample.w0 in
  supplied Args.omitted "mode" = None
  /\ (exists r w1,
        cli_resolve Cases.E_spec Args.omitted Sample.w0 = (Ok (Some r), w1)
        /\ r_mode r = "Metal 3D Printing"
        /\ Dict.get (r_mode r) (modes Cases.E_spec) = None)
  /\ ~ In "Metal 3D Printing" ["FDM"; "Metal"; "LaserCut"]
  /\ Dict.keys (modes Cases.E_spec) = ["FDM"; "Metal"; "LaserCut"]
  /\ fst run = Ok tt
  /\ existsb is_execute (log (snd run)) = false
  /\ existsb is_write_text (log (snd run)) = false.
Proof.
  intros run. split; [reflexivity|]. split.
  - eexists _, _. split; [vm_compute; reflexivity|]. split; reflexivity.
  - split; [intros [H|[H|[H|[]]]]; discriminate|]. repeat split.
Qed.
